(** * ImageHarvester: the Bing image-search client, its models and its
      error classifier

    A shallow embedding of [image_harvester/api/models.py],
    [image_harvester/api/exceptions.py] and
    [image_harvester/api/bing_client.py], and the properties of the
    request/retry/pagination loop and of the response mappers.

    Python values are dynamically typed, so the embedding works over a
    small universe of Python values ([Py.value]); every operation that can
    raise returns a [Py.outcome].  Strings are sequences of characters with
    code points below 256.  Calls to the logger, and the [print] of
    [from_response], are left out: they do not influence control flow. *)

From Stdlib Require Import ZArith List String Ascii Bool Lia.
From Stdlib Require Import PrimFloat FloatOps SpecFloat DecimalString Uint63.
Import ListNotations.

Set Warnings "-register-all".

Local Open Scope string_scope.
Local Open Scope list_scope.
Local Open Scope Z_scope.

(* ================================================================== *)
(** * Python values, exceptions and the builtins the program uses       *)
(* ================================================================== *)

Module Py.

(** The values a decoded JSON document is made of, which are also the
    values the dataclass fields hold (Python does not enforce the
    annotations).  A [VDict] is a dictionary with string keys in
    insertion order; a key is looked up at its first binding. *)
Inductive value : Type :=
| VNone
| VBool (b : bool)
| VInt (z : Z)
| VFloat (f : float)
| VStr (s : string)
| VList (l : list value)
| VDict (d : list (string * value)).

(** The exceptions that occur.  [RequestException] stands for
    [requests.exceptions.RequestException] and its subclasses (the
    argument tells them apart); [KeyboardInterrupt] is the one exception
    here that does not derive from [Exception]. *)
Inductive exn : Type :=
| AttributeError
| TypeError
| ValueError
| KeyError
| UnboundLocalError
| RequestException (what : string)
| KeyboardInterrupt.

(** [isinstance(e, Exception)] *)
Definition is_Exception (e : exn) : bool :=
  match e with
  | KeyboardInterrupt => false
  | _ => true
  end.

(** [isinstance(e, RequestException)] *)
Definition is_RequestException (e : exn) : bool :=
  match e with
  | RequestException _ => true
  | _ => false
  end.

Inductive outcome (A : Type) : Type :=
| Ok (a : A)
| Raise (e : exn).
Arguments Ok {A} a.
Arguments Raise {A} e.

Definition bind {A B : Type} (r : outcome A) (k : A -> outcome B) : outcome B :=
  match r with
  | Ok a => k a
  | Raise e => Raise e
  end.

(** [try: r  except (...) as e: handler e], where [handles] tells the
    exceptions the clause names *)
Definition try_except {A : Type} (r : outcome A) (handles : exn -> bool)
    (handler : exn -> outcome A) : outcome A :=
  match r with
  | Ok a => Ok a
  | Raise e => if handles e then handler e else Raise e
  end.

(** [bool(v)], the truth value the [not], [if] and [or] of the program test *)
Definition truthy (v : value) : bool :=
  match v with
  | VNone => false
  | VBool b => b
  | VInt z => negb (z =? 0)
  | VFloat f => negb (PrimFloat.eqb f PrimFloat.zero)
  | VStr s => negb (String.eqb s "")
  | VList l => match l with [] => false | _ => true end
  | VDict d => match d with [] => false | _ => true end
  end.

(** ** Dictionaries *)

Fixpoint lookup (k : string) (d : list (string * value)) : option value :=
  match d with
  | [] => None
  | (k', v) :: d' => if String.eqb k k' then Some v else lookup k d'
  end.

(** [k in d] for a dict [d] *)
Definition has_key (k : string) (d : list (string * value)) : bool :=
  match lookup k d with Some _ => true | None => false end.

(** [d.get(k, default)] for a dict [d] *)
Definition dict_get (d : list (string * value)) (k : string) (default : value) : value :=
  match lookup k d with Some v => v | None => default end.

(** [d[k] = v]: an existing key keeps its position *)
Fixpoint dict_set (k : string) (v : value) (d : list (string * value))
  : list (string * value) :=
  match d with
  | [] => [(k, v)]
  | (k', v') :: d' =>
      if String.eqb k k' then (k, v) :: d' else (k', v') :: dict_set k v d'
  end.

(** [d.update(extra)] *)
Definition dict_update (d extra : list (string * value)) : list (string * value) :=
  fold_left (fun acc kv => dict_set (fst kv) (snd kv) acc) extra d.

(** [data.get(k, default)] on an arbitrary value: only a dict has [get] *)
Definition get (data : value) (k : string) (default : value) : outcome value :=
  match data with
  | VDict d => Ok (dict_get d k default)
  | _ => Raise AttributeError
  end.

(** ** Strings *)

(** [sep in s] *)
Fixpoint str_contains (sep s : string) : bool :=
  String.prefix sep s ||
  match s with
  | EmptyString => false
  | String _ s' => str_contains sep s'
  end.

(** [s.split(sep)[0]] for a non-empty [sep]: the text before the first
    occurrence of [sep], all of [s] when there is none *)
Fixpoint str_split_head (sep s : string) : string :=
  if String.prefix sep s then EmptyString
  else match s with
       | EmptyString => EmptyString
       | String c s' => String c (str_split_head sep s')
       end.

(** [s.rstrip(c)] for a one-character argument *)
Fixpoint str_rstrip (c : ascii) (s : string) : string :=
  match s with
  | EmptyString => EmptyString
  | String a s' =>
      match str_rstrip c s' with
      | EmptyString => if Ascii.eqb a c then EmptyString else String a EmptyString
      | r => String a r
      end
  end.

(** [key in container]: membership for a dict, the elements of a list,
    substring for a string, [TypeError] for anything else *)
Definition contains (key : string) (container : value) : outcome bool :=
  match container with
  | VDict d => Ok (has_key key d)
  | VList l =>
      Ok (existsb (fun v => match v with VStr s => String.eqb s key | _ => false end) l)
  | VStr s => Ok (str_contains key s)
  | _ => Raise TypeError
  end.

(** [container[key]] for a string [key] *)
Definition getitem (container : value) (key : string) : outcome value :=
  match container with
  | VDict d => match lookup key d with Some v => Ok v | None => Raise KeyError end
  | _ => Raise TypeError
  end.

(** [for item in v]: the items the loop visits *)
Definition iter (v : value) : outcome (list value) :=
  match v with
  | VList l => Ok l
  | VDict d => Ok (map (fun kv => VStr (fst kv)) d)
  | VStr s => Ok (map (fun c => VStr (String c EmptyString)) (list_ascii_of_string s))
  | _ => Raise TypeError
  end.

(** [s + v] for a string [s] *)
Definition str_add (s : string) (v : value) : outcome string :=
  match v with
  | VStr m => Ok (s ++ m)%string
  | _ => Raise TypeError
  end.

(** [v.rstrip(c)]: only a string has [rstrip] *)
Definition rstrip (v : value) (c : ascii) : outcome string :=
  match v with
  | VStr s => Ok (str_rstrip c s)
  | _ => Raise AttributeError
  end.

(** [str(z)] for an int *)
Definition str_of_int (z : Z) : string :=
  NilZero.string_of_int (Z.to_int z).

(** ** [int(s)] for a string *)

(** The whitespace [int] drops around a literal (code points below
    256): tab to carriage return and the blank, and the two spaces
    outside ASCII, which [int] reads as blanks.  The separators 28 to
    31, which [str.isspace] counts as whitespace, are not dropped. *)
Definition is_space (c : ascii) : bool :=
  let n := nat_of_ascii c in
  ((9 <=? n) && (n <=? 13) || (n =? 32) || (n =? 133) || (n =? 160))%nat.

Definition digit_of (c : ascii) : option Z :=
  let n := nat_of_ascii c in
  if ((48 <=? n) && (n <=? 57))%nat then Some (Z.of_nat (n - 48)) else None.

Definition is_digit (c : ascii) : bool :=
  match digit_of c with Some _ => true | None => false end.

(** The number that the decimal digits [cs] denote after the digits read
    into [acc] *)
Definition decimal_from (acc : Z) (cs : list ascii) : Z :=
  fold_left
    (fun a c => 10 * a + match digit_of c with Some d => d | None => 0 end)
    cs acc.

Definition decimal (s : string) : Z :=
  decimal_from 0 (list_ascii_of_string s).

Fixpoint lstrip (s : list ascii) : list ascii :=
  match s with
  | c :: s' => if is_space c then lstrip s' else s
  | [] => []
  end.

Definition strip (s : list ascii) : list ascii :=
  rev (lstrip (rev (lstrip s))).

(** The digits of an integer literal after its sign: one digit or more,
    single underscores allowed between digits.  [acc] is the value read
    so far, [n] the number of digits read, [after_digit] tells whether the
    previous character was a digit. *)
Fixpoint int_digits (s : list ascii) (acc : Z) (n : nat) (after_digit : bool)
  : option (Z * nat) :=
  match s with
  | [] => if after_digit then Some (acc, n) else None
  | c :: s' =>
      match digit_of c with
      | Some d => int_digits s' (10 * acc + d) (S n) true
      | None =>
          if Ascii.eqb c "_" && after_digit then int_digits s' acc n false
          else None
      end
  end.

(** The optional sign of an integer literal *)
Definition split_sign (body : list ascii) : bool * list ascii :=
  match body with
  | c :: r =>
      if Ascii.eqb c "-" then (true, r)
      else if Ascii.eqb c "+" then (false, r)
      else (false, body)
  | [] => (false, body)
  end.

(** [int(s)]: surrounding whitespace is dropped, a sign is optional, and a
    literal of more than [max_str_digits] digits is refused when that
    limit ([sys.get_int_max_str_digits()], which is 0 or at least 640) is
    not 0. *)
Definition int_of_str (max_str_digits : nat) (s : string) : outcome Z :=
  let (neg, ds) := split_sign (strip (list_ascii_of_string s)) in
  match int_digits ds 0 0 false with
  | Some (z, n) =>
      if (negb (max_str_digits =? 0) && (max_str_digits <? n))%nat
      then Raise ValueError
      else Ok (if neg then - z else z)
  | None => Raise ValueError
  end.

(** ** Comparison with an int *)

(** [f >= n] for a float [f] and an int [n]; Python compares the exact
    values, and every comparison with a NaN is false. *)
Definition float_ge_int (f : float) (n : Z) : bool :=
  match Prim2SF f with
  | S754_nan => false
  | S754_infinity neg => negb neg
  | S754_zero _ => n <=? 0
  | S754_finite neg m e =>
      let sm := if neg then Z.neg m else Z.pos m in
      if 0 <=? e then n <=? sm * 2 ^ e
      else n * 2 ^ (- e) <=? sm
  end.

(** [v >= n] for an int [n] *)
Definition ge_int (v : value) (n : Z) : outcome bool :=
  match v with
  | VInt z => Ok (n <=? z)
  | VBool b => Ok (n <=? (if b then 1 else 0))
  | VFloat f => Ok (float_ge_int f n)
  | _ => Raise TypeError
  end.

(** [l[:n]] *)
Definition slice_to {A : Type} (l : list A) (n : Z) : list A :=
  if n <? 0 then firstn (List.length l - Z.to_nat (- n))%nat l
  else firstn (Z.to_nat n) l.

(** The parts of the Python runtime the program calls and that are kept
    abstract: the [datetime] type with [datetime.fromisoformat] ([None]
    when it raises [ValueError]), and the interpreter's limit on the
    digits of an integer literal. *)
Class Runtime : Type := {
  datetime : Type;
  fromisoformat : string -> option datetime;
  int_max_str_digits : nat
}.

End Py.

Export Py.

Declare Scope py_scope.
Delimit Scope py_scope with py.
Notation "'let?' x ':=' e 'in' k" := (Py.bind e (fun x => k))
  (at level 10, x name, e at level 100, k at level 200) : py_scope.
Local Open Scope py_scope.


(* ================================================================== *)
(** * api/models.py                                                     *)
(* ================================================================== *)

Module Models.

Section WithRuntime.
Context {RT : Runtime}.

(** The dataclass [ImageMetadata].  The fields hold what [from_dict] puts
    in them, values of any type. *)
Record ImageMetadata : Type := {
  content_url : value;
  name : value;
  width : value;
  height : value;
  content_size : value;
  encoding_format : value;
  host_page_url : value;
  thumbnail_url : value;
  created_date : option datetime;
  content_type : value;
  accentColor : value;
  _raw_data : value
}.

(** Lines 47-50 of [from_dict]: a string with [" B"] in it is cut at the
    first [" B"] and handed to [int]; anything else is kept. *)
Definition convert_content_size (content_size : value) : outcome value :=
  match content_size with
  | VStr s =>
      if str_contains " B" s
      then let? n := int_of_str int_max_str_digits (str_split_head " B" s) in
           Ok (VInt n)
      else Ok content_size
  | _ => Ok content_size
  end.

(** Lines 57-62 of [from_dict]: the date is parsed when the key is there;
    the [except] clause names [ValueError] and [TypeError]. *)
Definition parse_date_published (data : value) : outcome (option datetime) :=
  let? present := contains "datePublished" data in
  if present then
    try_except
      (let? v := getitem data "datePublished" in
       let? s := rstrip v "Z" in
       match fromisoformat s with
       | Some d => Ok (Some d)
       | None => Raise ValueError
       end)
      (fun e => match e with ValueError | TypeError => true | _ => false end)
      (fun _ => Ok None)
  else Ok None.

(** [ImageMetadata.from_dict] *)
Definition from_dict (data : value) : outcome ImageMetadata :=
  let? content_url := get data "contentUrl" (VStr "") in
  let? name := get data "name" (VStr "") in
  let? width := get data "width" (VInt 0) in
  let? height := get data "height" (VInt 0) in
  let? content_size := get data "contentSize" VNone in
  let? content_size := convert_content_size content_size in
  let? encoding_format := get data "encodingFormat" VNone in
  let? host_page_url := get data "hostPageUrl" VNone in
  let? thumbnail_url := get data "thumbnailUrl" VNone in
  let? created_date := parse_date_published data in
  let? content_type := get data "contentType" VNone in
  let? accent_color := get data "accentColor" VNone in
  Ok {| content_url := content_url;
        name := name;
        width := width;
        height := height;
        content_size := content_size;
        encoding_format := encoding_format;
        host_page_url := host_page_url;
        thumbnail_url := thumbnail_url;
        created_date := created_date;
        content_type := content_type;
        accentColor := accent_color;
        _raw_data := data |}.

(** [ImageMetadata.meets_size_requirements]; [and] evaluates its second
    operand only when the first is true. *)
Definition meets_size_requirements (self : ImageMetadata) (min_width min_height : Z)
  : outcome bool :=
  let? w := ge_int (width self) min_width in
  if w then ge_int (height self) min_height else Ok false.

(** The dataclass [SearchResult]. *)
Record SearchResult : Type := {
  query : string;
  images : list ImageMetadata;
  next_offset : value;
  total_estimated_matches : value
}.

(** The [for item in value] loop of [from_response]: [images] is the
    list built so far; [except Exception] skips the item. *)
Fixpoint map_items (items : list value) (images : list ImageMetadata)
  : outcome (list ImageMetadata) :=
  match items with
  | [] => Ok images
  | item :: rest =>
      match from_dict item with
      | Ok image => map_items rest (images ++ [image])
      | Raise e => if is_Exception e then map_items rest images else Raise e
      end
  end.

(** [SearchResult.from_response] *)
Definition from_response (query : string) (response_data : value) : outcome SearchResult :=
  let? value := get response_data "value" (VList []) in
  let? items := iter value in
  let? images := map_items items [] in
  let? present := contains "nextOffset" response_data in
  let? next_offset :=
    if present then getitem response_data "nextOffset" else Ok VNone in
  let? total_estimated_matches := get response_data "totalEstimatedMatches" (VInt 0) in
  Ok {| query := query;
        images := images;
        next_offset := next_offset;
        total_estimated_matches := total_estimated_matches |}.

(** The list comprehension of [filter_by_size] *)
Fixpoint filter_images (imgs : list ImageMetadata) (min_width min_height : Z)
  : outcome (list ImageMetadata) :=
  match imgs with
  | [] => Ok []
  | img :: rest =>
      let? keep := meets_size_requirements img min_width min_height in
      let? filtered := filter_images rest min_width min_height in
      Ok (if keep then img :: filtered else filtered)
  end.

(** [width >= min_width and height >= min_height] for an image whose
    [width] and [height] are ints, as the dataclass declares them *)
Definition has_int_size (img : ImageMetadata) : Prop :=
  exists w h, width img = VInt w /\ height img = VInt h.

Definition size_at_least (min_width min_height : Z) (img : ImageMetadata) : bool :=
  match width img, height img with
  | VInt w, VInt h => (min_width <=? w) && (min_height <=? h)
  | _, _ => false
  end.

(** [SearchResult.filter_by_size] *)
Definition filter_by_size (self : SearchResult) (min_width min_height : Z)
  : outcome SearchResult :=
  let? filtered_images := filter_images (images self) min_width min_height in
  Ok {| query := query self;
        images := filtered_images;
        next_offset := next_offset self;
        total_estimated_matches := total_estimated_matches self |}.

End WithRuntime.

End Models.

(* ================================================================== *)
(** * api/exceptions.py                                                 *)
(* ================================================================== *)

Module Exceptions.

(** The classes of the module *)
Inductive error_class : Type :=
| BingAPIError
| BingAuthenticationError
| BingRateLimitError
| BingSearchError.

(** An instance: its class, the message handed to [Exception.__init__],
    and the two attributes [__init__] sets. *)
Record error : Type := {
  class : error_class;
  message : string;
  status_code : Z;
  response : value
}.

(** [handle_bing_error] *)
Definition handle_bing_error (status_code : Z) (response_data : value) : outcome error :=
  let error_message := VStr "Unknown Bing API error" in
  let? has_error :=
    match response_data with
    | VDict _ => contains "error" response_data
    | _ => Ok false
    end in
  let? error_message :=
    if has_error then
      let? error_data := getitem response_data "error" in
      let? has_message := contains "message" error_data in
      if has_message then getitem error_data "message" else Ok error_message
    else Ok error_message in
  if status_code =? 401 then
    let? m := str_add "Authentication failed: " error_message in
    Ok {| class := BingAuthenticationError; message := m;
          status_code := status_code; response := response_data |}
  else if status_code =? 429 then
    let? m := str_add "Rate limit exceeded: " error_message in
    Ok {| class := BingRateLimitError; message := m;
          status_code := status_code; response := response_data |}
  else
    let? m := str_add ("Search error (" ++ str_of_int status_code ++ "): ")%string
                      error_message in
    Ok {| class := BingSearchError; message := m;
          status_code := status_code; response := response_data |}.

(** The class and the prefix of the message that go with a status code *)
Definition class_of (status_code : Z) : error_class :=
  if status_code =? 401 then BingAuthenticationError
  else if status_code =? 429 then BingRateLimitError
  else BingSearchError.

Definition prefix_of (status_code : Z) : string :=
  match class_of status_code with
  | BingAuthenticationError => "Authentication failed: "
  | BingRateLimitError => "Rate limit exceeded: "
  | _ => ("Search error (" ++ str_of_int status_code ++ "): ")%string
  end.

(** The body carries the message [m]: it is a dict whose ["error"] is a
    dict whose ["message"] is the string [m]. *)
Inductive api_message : value -> string -> Prop :=
| api_message_intro d e m :
    lookup "error" d = Some (VDict e) ->
    lookup "message" e = Some (VStr m) ->
    api_message (VDict d) m.

(** The body carries no message: it is not a dict, or a dict without
    ["error"], or its ["error"] is a dict, a string or a list in which
    ['message' in error_data] finds nothing. *)
Inductive no_api_message : value -> Prop :=
| no_message_not_dict v :
    (forall d, v <> VDict d) -> no_api_message v
| no_message_no_error d :
    lookup "error" d = None -> no_api_message (VDict d)
| no_message_in_error d error_data :
    lookup "error" d = Some error_data ->
    contains "message" error_data = Ok false ->
    no_api_message (VDict d).

(** A value in which nothing can be looked for with [in] *)
Definition not_a_container (v : value) : Prop :=
  match v with
  | VNone | VBool _ | VInt _ | VFloat _ => True
  | _ => False
  end.

End Exceptions.

(* ================================================================== *)
(** * api/bing_client.py                                                *)
(* ================================================================== *)

Module BingClient.

Import Models.

(** What one [requests.get] is called with *)
Record request : Type := {
  url : string;
  params : list (string * value);
  headers : list (string * value);
  timeout : Z
}.

(** The calls the client makes to the outside, with what they returned.
    [EvGet] is one pass through the [try] block of
    [_make_request_with_retries]: [requests.get], [raise_for_status] and
    [response.json()], which give the decoded body or raise. *)
Inductive event : Type :=
| EvGet (req : request) (answer : outcome value)
| EvTime (t : float)
| EvSleep (seconds : value).

(** The outside: the network behind [requests] and the clock behind
    [time]. *)
Class Env : Type := {
  World : Type;
  http_get : request -> World -> outcome value * World;
  time_time : World -> float * World;
  time_sleep : value -> World -> World
}.

(** The attributes of a [BingImageSearchClient] *)
Record client : Type := {
  api_key : string;
  endpoint : string;
  request_delay : float;
  max_retries : Z;
  last_request_time : float
}.

Definition set_last_request_time (c : client) (t : float) : client :=
  {| api_key := api_key c;
     endpoint := endpoint c;
     request_delay := request_delay c;
     max_retries := max_retries c;
     last_request_time := t |}.

Section WithEnv.
Context {RT : Runtime} {E : Env}.

(** The state a method runs in: the outside world, the calls made so
    far (oldest first) and the client object. *)
Record state : Type := {
  world : World;
  trace : list event;
  self : client
}.

(** A method: it ends with a value or an exception, and the state it
    leaves behind is kept in both cases. *)
Definition M (A : Type) : Type := state -> outcome A * state.

Definition ret {A : Type} (a : A) : M A := fun st => (Ok a, st).

Definition raise {A : Type} (e : exn) : M A := fun st => (Raise e, st).

Definition mbind {A B : Type} (m : M A) (k : A -> M B) : M B :=
  fun st =>
    match m st with
    | (Ok a, st') => k a st'
    | (Raise e, st') => (Raise e, st')
    end.

Definition lift {A : Type} (r : outcome A) : M A := fun st => (r, st).

Notation "'let!' x ':=' e 'in' k" := (mbind e (fun x => k))
  (at level 10, x name, e at level 100, k at level 200).

Definition get_self : M client := fun st => (Ok (self st), st).

(** [requests.get(...)], [raise_for_status()], [json()] *)
Definition requests_get (req : request) : M value :=
  fun st =>
    let (answer, w) := http_get req (world st) in
    (answer,
     {| world := w; trace := trace st ++ [EvGet req answer]; self := self st |}).

(** [time.time()] *)
Definition time (_ : unit) : M float :=
  fun st =>
    let (t, w) := time_time (world st) in
    (Ok t, {| world := w; trace := trace st ++ [EvTime t]; self := self st |}).

(** [time.sleep(seconds)] *)
Definition sleep (seconds : value) : M unit :=
  fun st =>
    (Ok tt,
     {| world := time_sleep seconds (world st);
        trace := trace st ++ [EvSleep seconds];
        self := self st |}).

(** [self.last_request_time = t] *)
Definition store_last_request_time (t : float) : M unit :=
  fun st =>
    (Ok tt,
     {| world := world st; trace := trace st;
        self := set_last_request_time (self st) t |}).

(** [_enforce_rate_limit] *)
Definition _enforce_rate_limit : M unit :=
  let! current_time := time tt in
  let! c := get_self in
  let time_since_last_request := PrimFloat.sub current_time (last_request_time c) in
  let! _ :=
    if PrimFloat.ltb time_since_last_request (request_delay c) then
      let wait_time := PrimFloat.sub (request_delay c) time_since_last_request in
      sleep (VFloat wait_time)
    else ret tt in
  let! t := time tt in
  store_last_request_time t.

(** [range(1, n + 1)] *)
Definition range_from_1 (n : Z) : list Z :=
  map Z.of_nat (seq 1 (Z.to_nat n)).

(** The [for attempt in range(1, self.max_retries + 1)] loop of
    [_make_request_with_retries] and the [raise] after it; [attempts] are
    the attempts still to make. *)
Fixpoint retry_loop (req : request) (max : Z) (attempts : list Z)
    (last_exception : option exn) : M value :=
  match attempts with
  | [] =>
      raise (match last_exception with
             | Some e => e
             | None => RequestException "All retry attempts failed"
             end)
  | attempt :: rest =>
      fun st =>
        match requests_get req st with
        | (Ok body, st') => (Ok body, st')
        | (Raise e, st') =>
            if is_RequestException e then
              (let! _ :=
                 if attempt <? max
                 then sleep (VInt (2 ^ (attempt - 1)))
                 else ret tt in
               retry_loop req max rest (Some e)) st'
            else (Raise e, st')
        end
  end.

(** [_make_request_with_retries] *)
Definition _make_request_with_retries (params headers : list (string * value))
  : M value :=
  let! c := get_self in
  let req := {| url := endpoint c; params := params; headers := headers;
                timeout := 30 |} in
  retry_loop req (max_retries c) (range_from_1 (max_retries c)) None.

(** [search] *)
Definition search (query : string) (count : Z)
    (offset market safe_search image_type filter : value)
    (kwargs : list (string * value)) : M SearchResult :=
  let! _ := _enforce_rate_limit in
  let params :=
    [("q", VStr query);
     ("count", VInt (Z.min count 150));
     ("offset", offset);
     ("mkt", market);
     ("safeSearch", safe_search)] in
  let params := if truthy image_type then dict_set "imageType" image_type params
                else params in
  let params := if truthy filter then dict_set "$filter" filter params
                else params in
  let params := dict_update params kwargs in
  let! c := get_self in
  let headers :=
    [("Ocp-Apim-Subscription-Key", VStr (api_key c));
     ("Accept", VStr "application/json")] in
  let! response_data := _make_request_with_retries params headers in
  lift (from_response query response_data).

(** The keyword arguments that are left for [**kwargs] once the named
    parameters of [search] have taken theirs *)
Definition rest_kwargs (kwargs : list (string * value)) : list (string * value) :=
  List.filter
    (fun kv => negb (existsb (String.eqb (fst kv))
                       ["market"; "safe_search"; "image_type"; "filter"]))
    kwargs.

(** The call [self.search(query, count=current_count, offset=offset,
    **kwargs)] of [search_all]: a keyword of [kwargs] that names an
    argument already given is a [TypeError]; the other named parameters
    take their value from [kwargs] or their default. *)
Definition call_search (query : string) (current_count : Z) (offset : value)
    (kwargs : list (string * value)) : M SearchResult :=
  if existsb (fun k => has_key k kwargs) ["self"; "query"; "count"; "offset"]
  then raise TypeError
  else
    search query current_count offset
      (dict_get kwargs "market" (VStr "en-US"))
      (dict_get kwargs "safe_search" (VStr "Moderate"))
      (dict_get kwargs "image_type" VNone)
      (dict_get kwargs "filter" VNone)
      (rest_kwargs kwargs).

(** The local variables of [search_all] that the loop changes;
    [result] is [None] as long as it has not been assigned. *)
Record locals : Type := {
  all_images : list ImageMetadata;
  offset : value;
  result : option SearchResult
}.

(** The [while len(all_images) < max_images] loop of [search_all].  The
    fuel bounds the number of times the condition is tested; [None] means
    that it ran out. *)
Fixpoint search_all_loop (fuel : nat) (query : string) (max_images : Z)
    (kwargs : list (string * value)) (count_per_request : Z) (l : locals)
  : M (option locals) :=
  match fuel with
  | O => ret None
  | S fuel' =>
      if Z.of_nat (List.length (all_images l)) <? max_images then
        let remaining := max_images - Z.of_nat (List.length (all_images l)) in
        let current_count := Z.min remaining count_per_request in
        let! r := call_search query current_count (offset l) kwargs in
        let all_images' := all_images l ++ images r in
        if negb (truthy (next_offset r))
           || match images r with [] => true | _ => false end
        then ret (Some {| all_images := all_images';
                          offset := offset l;
                          result := Some r |})
        else search_all_loop fuel' query max_images kwargs count_per_request
               {| all_images := all_images';
                  offset := next_offset r;
                  result := Some r |}
      else ret (Some l)
  end.

(** [search_all].  A keyword argument with the name of a parameter does
    not reach [**kwargs]: the call is a [TypeError].  Every pass through
    the loop that does not leave it adds an image, so the condition is
    tested at most [max_images + 1] times; [None] is the answer of a
    loop that ran out of fuel, which does not happen with the fuel given
    here. *)
Definition search_all (query : string) (max_images : Z)
    (kwargs : list (string * value)) : M (option SearchResult) :=
  if existsb (fun k => has_key k kwargs) ["self"; "query"; "max_images"]
  then raise TypeError
  else
    let count_per_request := Z.min 150 max_images in
    let! l := search_all_loop (S (Z.to_nat max_images)) query max_images kwargs
                count_per_request
                {| all_images := []; offset := VInt 0; result := None |} in
    match l with
    | None => ret None
    | Some l =>
        let images := slice_to (all_images l) max_images in
        match result l with
        | None => raise UnboundLocalError
        | Some r =>
            ret (Some {| query := query;
                         images := images;
                         next_offset := VNone;
                         total_estimated_matches := total_estimated_matches r |})
        end
    end.

(** ** The retry schedule and the pagination, as the specification
       words them *)

(** The keyword arguments Python can bind to the [**kwargs] of
    [search_all]: none of them has the name of a parameter. *)
Definition bindable (kwargs : list (string * value)) : Prop :=
  existsb (fun k => has_key k kwargs) ["self"; "query"; "max_images"] = false.

(** The calls of a retry loop whose attempts, the first of which has
    index [attempt], were answered by [answers]: one request per
    answer, and between two requests a sleep of [2 ^ (attempt - 1)]. *)
Fixpoint backoff_trace (req : request) (attempt : Z) (answers : list (outcome value))
  : list event :=
  match answers with
  | [] => []
  | a :: rest =>
      EvGet req a ::
      match rest with
      | [] => []
      | _ => EvSleep (VInt (2 ^ (attempt - 1))) :: backoff_trace req (attempt + 1) rest
      end
  end.

(** One page of a pagination: the count and the offset [search] was
    called with, and the result it returned. *)
Record page_fetch : Type := {
  asked_count : Z;
  asked_offset : value;
  fetched : SearchResult
}.

(** [paginates query max_images kwargs collected offset st pages err st']:
    starting in state [st] with the images [collected] and the next
    offset [offset], pages are fetched by calls to [search], each asking
    for [min(remaining, min(150, max_images))] images at the offset the
    page before gave, until [max_images] images are collected, or a page
    has no truthy [next_offset] or no image, or [search] raises ([err]);
    [st'] is the state after the last call. *)
Inductive paginates (query : string) (max_images : Z) (kwargs : list (string * value))
  : list ImageMetadata -> value -> state ->
    list page_fetch -> option exn -> state -> Prop :=
| paginates_enough collected offset st :
    max_images <= Z.of_nat (List.length collected) ->
    paginates query max_images kwargs collected offset st [] None st
| paginates_raise collected offset st e st' :
    Z.of_nat (List.length collected) < max_images ->
    call_search query
      (Z.min (max_images - Z.of_nat (List.length collected)) (Z.min 150 max_images))
      offset kwargs st = (Raise e, st') ->
    paginates query max_images kwargs collected offset st [] (Some e) st'
| paginates_last collected offset st r st' :
    Z.of_nat (List.length collected) < max_images ->
    call_search query
      (Z.min (max_images - Z.of_nat (List.length collected)) (Z.min 150 max_images))
      offset kwargs st = (Ok r, st') ->
    truthy (next_offset r) = false \/ images r = [] ->
    paginates query max_images kwargs collected offset st
      [{| asked_count :=
            Z.min (max_images - Z.of_nat (List.length collected)) (Z.min 150 max_images);
          asked_offset := offset;
          fetched := r |}]
      None st'
| paginates_more collected offset st r st' pages err st'' :
    Z.of_nat (List.length collected) < max_images ->
    call_search query
      (Z.min (max_images - Z.of_nat (List.length collected)) (Z.min 150 max_images))
      offset kwargs st = (Ok r, st') ->
    truthy (next_offset r) = true ->
    images r <> [] ->
    paginates query max_images kwargs (collected ++ images r) (next_offset r) st'
      pages err st'' ->
    paginates query max_images kwargs collected offset st
      ({| asked_count :=
            Z.min (max_images - Z.of_nat (List.length collected)) (Z.min 150 max_images);
          asked_offset := offset;
          fetched := r |} :: pages)
      err st''.

(** The images of the pages, and the [total_estimated_matches] of the
    last of them *)
Definition images_of (pages : list page_fetch) : list ImageMetadata :=
  flat_map (fun p => images (fetched p)) pages.

Definition last_total (pages : list page_fetch) : option value :=
  match rev pages with
  | p :: _ => Some (total_estimated_matches (fetched p))
  | [] => None
  end.

End WithEnv.

End BingClient.

(* ================================================================== *)
(** * A runtime and transports to run the program on                    *)
(* ================================================================== *)

Module Fixtures.

Import Models BingClient.

(** ** A runtime *)

Record date_time : Type := {
  year : Z; month : Z; day : Z; hour : Z; minute : Z; second : Z
}.

Definition number (cs : list ascii) : option Z :=
  fold_left
    (fun acc c =>
       match acc, digit_of c with
       | Some a, Some d => Some (10 * a + d)
       | _, _ => None
       end)
    cs (Some 0).

Definition days_in_month (y m : Z) : Z :=
  if m =? 2 then
    if (y mod 4 =? 0) && (negb (y mod 100 =? 0) || (y mod 400 =? 0)) then 29 else 28
  else if (m =? 4) || (m =? 6) || (m =? 9) || (m =? 11) then 30
  else 31.

Definition make_date_time (y m d hh mm ss : option Z) : option date_time :=
  match y, m, d, hh, mm, ss with
  | Some y, Some m, Some d, Some hh, Some mm, Some ss =>
      if (1 <=? y) && (1 <=? m) && (m <=? 12) && (1 <=? d) && (d <=? days_in_month y m)
         && (hh <? 24) && (mm <? 60) && (ss <? 60)
      then Some {| year := y; month := m; day := d;
                   hour := hh; minute := mm; second := ss |}
      else None
  | _, _, _, _, _, _ => None
  end.

(** The forms [YYYY-MM-DD] and [YYYY-MM-DDTHH:MM:SS] of
    [datetime.fromisoformat]; the other forms it reads are refused here. *)
Definition fromisoformat_basic (s : string) : option date_time :=
  let cs := list_ascii_of_string s in
  let dash c := Ascii.eqb c "-" in
  let colon c := Ascii.eqb c ":" in
  match cs with
  | [y1; y2; y3; y4; a; m1; m2; b; d1; d2] =>
      if dash a && dash b
      then make_date_time (number [y1; y2; y3; y4]) (number [m1; m2]) (number [d1; d2])
             (Some 0) (Some 0) (Some 0)
      else None
  | [y1; y2; y3; y4; a; m1; m2; b; d1; d2; t; h1; h2; c; i1; i2; d; s1; s2] =>
      if dash a && dash b && Ascii.eqb t "T" && colon c && colon d
      then make_date_time (number [y1; y2; y3; y4]) (number [m1; m2]) (number [d1; d2])
             (number [h1; h2]) (number [i1; i2]) (number [s1; s2])
      else None
  | _ => None
  end.

Definition runtime : Runtime := {|
  datetime := date_time;
  fromisoformat := fromisoformat_basic;
  int_max_str_digits := 4300
|}.

(** ** Transports *)

(** A world with a clock that only [time.sleep] advances, and a
    transport that answers its [n]-th call (from 0) with [respond n]. *)
Record fake_world : Type := {
  clock : float;
  calls : nat
}.

Definition seconds_of (v : value) : float :=
  match v with
  | VFloat f => f
  | VInt z => PrimFloat.of_uint63 (Uint63.of_Z z)
  | _ => PrimFloat.zero
  end.

Definition fake_env (respond : nat -> request -> outcome value) : Env := {|
  World := fake_world;
  http_get := fun req w =>
    (respond (calls w) req, {| clock := clock w; calls := S (calls w) |});
  time_time := fun w => (clock w, w);
  time_sleep := fun v w =>
    {| clock := PrimFloat.add (clock w) (seconds_of v); calls := calls w |}
|}.

Definition fake_client : client := {|
  api_key := "key";
  endpoint := "https://api.bing.microsoft.com/v7.0/images/search";
  request_delay := 1%float;
  max_retries := 3;
  last_request_time := 0%float
|}.

Definition fake_start (respond : nat -> request -> outcome value)
  : @state (fake_env respond) :=
  @Build_state (fake_env respond) (Build_fake_world 1000%float O) [] fake_client.

(** A page of [n] items without any field, with the given [nextOffset] *)
Definition page (n : nat) (next : value) : value :=
  VDict [("value", VList (repeat (VDict []) n));
         ("nextOffset", next);
         ("totalEstimatedMatches", VInt 1000)].

(** Pages of 50 images, [nextOffset] 50 past the offset asked for *)
Definition pages_of_50 (_ : nat) (req : request) : outcome value :=
  match lookup "offset" (params req) with
  | Some (VInt o) => Ok (page 50 (VInt (o + 50)))
  | _ => Raise (RequestException "400 Client Error")
  end.

(** Pages of 50 images whose [nextOffset] is present and 0 *)
Definition pages_next_0 (_ : nat) (_ : request) : outcome value :=
  Ok (page 50 (VInt 0)).

(** Two timeouts, then an answer *)
Definition fails_twice (n : nat) (_ : request) : outcome value :=
  if (n <? 2)%nat then Raise (RequestException "Read timed out")
  else Ok (page 1 VNone).


Definition sleeps (tr : list event) : list value :=
  flat_map (fun ev => match ev with EvSleep v => [v] | _ => [] end) tr.

Definition gets (tr : list event) : list (request * outcome value) :=
  flat_map (fun ev => match ev with EvGet req o => [(req, o)] | _ => [] end) tr.

(** The number of images of the result a call returned, when it
    returned one *)
Definition image_count {RT : Runtime} (o : outcome (option SearchResult)) : option nat :=
  match o with
  | Ok (Some r) => Some (List.length (images r))
  | _ => None
  end.

(** ** Sample data *)

Definition sample_item : list (string * value) :=
  [("name", VStr "a"); ("contentSize", VStr "102400 B");
   ("datePublished", VStr "2023-05-01T00:00:00Z")].

Definition sample_response : list (string * value) :=
  [("value", VList [VDict [("name", VStr "a")];
                    VInt 7;
                    VDict [("name", VStr "b"); ("contentSize", VStr "abc B")];
                    VDict [("name", VStr "c"); ("datePublished", VInt 5)];
                    VDict [("name", VStr "d")]]);
   ("nextOffset", VInt 5)].

Definition sample_image (w h : value) : @ImageMetadata runtime :=
  {| content_url := VStr "http://example.org/a.png"; name := VStr "a";
     width := w; height := h;
     content_size := VNone; encoding_format := VNone; host_page_url := VNone;
     thumbnail_url := VNone; created_date := None; content_type := VNone;
     accentColor := VNone; _raw_data := VDict [] |}.

Definition sample_result : @SearchResult runtime :=
  {| query := "cats";
     images := [sample_image (VInt 800) (VInt 300);
                sample_image (VInt 400) (VInt 400);
                sample_image (VInt 399) (VInt 1000);
                sample_image (VInt 1024) (VInt 768)];
     next_offset := VInt 35;
     total_estimated_matches := VInt 1000 |}.

End Fixtures.

(* ================================================================== *)
(** * utils/config.py and the construction of the client                *)
(* ================================================================== *)

Module Config.

(** The module-level values the client and [validate_config] read.
    [os.getenv] gives [None] for a variable that is not set and has no
    default. *)
Record config : Type := {
  BING_SEARCH_API_KEY : option string;
  BING_SEARCH_ENDPOINT : string;
  DEFAULT_REQUEST_DELAY : float;
  MAX_RETRY_ATTEMPTS : Z
}.

(** [validate_config] *)
Definition validate_config (c : config) : bool :=
  match BING_SEARCH_API_KEY c with
  | None => false
  | Some _ => if String.eqb (BING_SEARCH_ENDPOINT c) "" then false else true
  end.

End Config.

Module ClientInit.

Import Config BingClient.

(** [a or b] for an optional string [a] *)
Definition or_else (a b : option string) : option string :=
  match a with
  | Some s => if String.eqb s "" then b else a
  | None => b
  end.

(** [not s] for an optional string *)
Definition falsy_str (s : option string) : bool :=
  match s with
  | Some s => String.eqb s ""
  | None => true
  end.

(** [BingImageSearchClient.__init__].  An [api_key] or [endpoint] that
    is [None] was left out or given as [None]; a [request_delay] or
    [max_retries] that is [None] here was left out, and its default is
    the value of the configuration. *)
Definition init (cfg : config) (api_key endpoint : option string)
    (request_delay : option float) (max_retries : option Z) : outcome client :=
  let self_api_key := or_else api_key (BING_SEARCH_API_KEY cfg) in
  let self_endpoint := or_else endpoint (Some (BING_SEARCH_ENDPOINT cfg)) in
  let self_request_delay :=
    match request_delay with Some d => d | None => DEFAULT_REQUEST_DELAY cfg end in
  let self_max_retries :=
    match max_retries with Some n => n | None => MAX_RETRY_ATTEMPTS cfg end in
  if falsy_str self_api_key then Raise ValueError
  else if falsy_str self_endpoint then Raise ValueError
  else
    match self_api_key, self_endpoint with
    | Some k, Some e =>
        Ok {| api_key := k;
              endpoint := e;
              request_delay := self_request_delay;
              max_retries := self_max_retries;
              last_request_time := 0%float |}
    | _, _ => Raise ValueError
    end.

End ClientInit.

(* ================================================================== *)
(** * api/models.py: [to_dict]                                          *)
(* ================================================================== *)

Module ModelsDump.

Import Models.

(** [ImageMetadata.to_dict]; [isoformat] is [datetime.isoformat]. *)
Definition to_dict {RT : Runtime} (isoformat : datetime -> string)
    (self : ImageMetadata) : list (string * value) :=
  [("content_url", content_url self);
   ("name", name self);
   ("width", width self);
   ("height", height self);
   ("content_size", content_size self);
   ("encoding_format", encoding_format self);
   ("host_page_url", host_page_url self);
   ("thumbnail_url", thumbnail_url self);
   ("created_date",
    match created_date self with
    | Some d => VStr (isoformat d)
    | None => VNone
    end);
   ("content_type", content_type self);
   ("accent_color", accentColor self)].

(** A value that compares with an int: an int, a boolean or a float *)
Definition is_number (v : value) : bool :=
  match v with
  | VInt _ | VBool _ | VFloat _ => true
  | _ => false
  end.

End ModelsDump.

(* ================================================================== *)
(** * What a trace shows                                                *)
(* ================================================================== *)

Module Observe.

Import BingClient.

(** The seconds slept in the backoffs of a trace *)
Definition total_backoff (tr : list event) : Z :=
  fold_right
    (fun ev acc => match ev with EvSleep (VInt s) => s + acc | _ => acc end)
    0 tr.

(** The number of requests of a trace *)
Definition request_count (tr : list event) : nat :=
  List.length (List.filter (fun ev => match ev with EvGet _ _ => true | _ => false end) tr).

(** The number of sleeps of a trace *)
Definition sleep_count (tr : list event) : nat :=
  List.length (List.filter (fun ev => match ev with EvSleep _ => true | _ => false end) tr).

(** The last clock reading of a trace *)
Definition last_time (tr : list event) : option float :=
  fold_left (fun acc ev => match ev with EvTime t => Some t | _ => acc end) tr None.

End Observe.

(* ================================================================== *)
(** * More clients and transports to run the program on                 *)
(* ================================================================== *)

Module MoreFixtures.

Import Config BingClient Fixtures.

(** A transport whose call ends with an exception that is not a
    [RequestException] *)
Definition crashes (_ : nat) (_ : request) : outcome value := Raise TypeError.

(** A transport that refuses every connection *)
Definition always_fails (_ : nat) (_ : request) : outcome value :=
  Raise (RequestException "Connection refused").

(** A transport that serves pages without images that name a next
    offset *)
Definition empty_pages (_ : nat) (_ : request) : outcome value :=
  Ok (page 0 (VInt 50)).

(** A client that was given [max_retries=0] *)
Definition no_retry_client : client := {|
  api_key := "key";
  endpoint := "https://api.bing.microsoft.com/v7.0/images/search";
  request_delay := 1%float;
  max_retries := 0;
  last_request_time := 0%float
|}.

(** A client that sent its last request half a second before the clock
    of the transports starts *)
Definition waiting_client : client := {|
  api_key := "key";
  endpoint := "https://api.bing.microsoft.com/v7.0/images/search";
  request_delay := 1%float;
  max_retries := 3;
  last_request_time := 999.5%float
|}.

Definition start_with (respond : nat -> request -> outcome value) (c : client)
  : @state (fake_env respond) :=
  @Build_state (fake_env respond) (Build_fake_world 1000%float O) [] c.

(** The configuration of an environment that sets the key to the empty
    string *)
Definition empty_key_config : config := {|
  BING_SEARCH_API_KEY := Some "";
  BING_SEARCH_ENDPOINT := "https://api.bing.microsoft.com/v7.0/images/search";
  DEFAULT_REQUEST_DELAY := 1%float;
  MAX_RETRY_ATTEMPTS := 3
|}.

End MoreFixtures.

Import Models BingClient Fixtures.

(* ================================================================== *)
(** * Facts about the builtins                                          *)
(* ================================================================== *)

Module PyFacts.

Lemma lookup_has_key k d : has_key k d = true <-> exists v, lookup k d = Some v.
Proof.
  unfold has_key. destruct (lookup k d) as [v|]; split.
  - intros _. now exists v.
  - reflexivity.
  - discriminate.
  - intros [v H]. discriminate.
Qed.

Lemma dict_get_some d k v default : lookup k d = Some v -> dict_get d k default = v.
Proof. unfold dict_get. now intros ->. Qed.

Lemma dict_get_none d k default : lookup k d = None -> dict_get d k default = default.
Proof. unfold dict_get. now intros ->. Qed.

Lemma str_append_assoc (a b c : string) : ((a ++ b) ++ c = a ++ (b ++ c))%string.
Proof. induction a as [|x a IH]; cbn; [reflexivity|now rewrite IH]. Qed.

Lemma prefix_app s t : String.prefix s (s ++ t)%string = true.
Proof.
  induction s as [|c s IH]; simpl.
  - now destruct t.
  - destruct (ascii_dec c c) as [_|N]; [exact IH | now elim N].
Qed.

Lemma str_contains_prefix sep s : String.prefix sep s = true -> str_contains sep s = true.
Proof. destruct s; simpl; intros ->; reflexivity. Qed.

Lemma str_contains_app a sep b : str_contains sep (a ++ sep ++ b)%string = true.
Proof.
  induction a as [|c a IH]; simpl.
  - apply str_contains_prefix, prefix_app.
  - rewrite IH. apply orb_true_r.
Qed.

Lemma is_digit_not_space c : is_digit c = true -> is_space c = false.
Proof.
  destruct c as [[] [] [] [] [] [] [] []]; vm_compute; intros H;
    first [reflexivity | discriminate H].
Qed.

Lemma is_digit_not_blank c : is_digit c = true -> c <> " "%char.
Proof.
  intros H ->. vm_compute in H. discriminate.
Qed.

Lemma str_split_head_prefix sep s :
  String.prefix sep s = true -> str_split_head sep s = EmptyString.
Proof. destruct s; simpl; intros ->; reflexivity. Qed.

Lemma prefix_cons_neq a s1 c s :
  a <> c -> String.prefix (String a s1) (String c s) = false.
Proof.
  intros N. cbn [String.prefix]. destruct (ascii_dec a c) as [E|_]; [now elim N|reflexivity].
Qed.

Lemma str_split_head_cons c s :
  c <> " "%char -> str_split_head " B" (String c s) = String c (str_split_head " B" s).
Proof.
  intros Hc.
  change (str_split_head " B" (String c s))
    with (if String.prefix " B" (String c s) then EmptyString
          else String c (str_split_head " B" s)).
  rewrite prefix_cons_neq; [reflexivity|congruence].
Qed.

Lemma str_split_head_digits ds rest :
  forallb is_digit (list_ascii_of_string ds) = true ->
  str_split_head " B" (ds ++ " B" ++ rest)%string = ds.
Proof.
  induction ds as [|c ds IH]; intros H.
  - change (EmptyString ++ " B" ++ rest)%string with (" B" ++ rest)%string.
    apply str_split_head_prefix, prefix_app.
  - simpl in H. apply andb_prop in H. destruct H as [Hc Hds].
    change (String c ds ++ " B" ++ rest)%string
      with (String c (ds ++ " B" ++ rest)%string).
    rewrite str_split_head_cons by now apply is_digit_not_blank.
    now rewrite IH.
Qed.

Lemma lstrip_digits l : forallb is_digit l = true -> lstrip l = l.
Proof.
  destruct l as [|c l]; simpl; [reflexivity|].
  intros H. apply andb_prop in H. destruct H as [Hc _].
  now rewrite (is_digit_not_space _ Hc).
Qed.

Lemma strip_digits l : forallb is_digit l = true -> strip l = l.
Proof.
  intros H. unfold strip. rewrite (lstrip_digits l H).
  rewrite lstrip_digits; [apply rev_involutive|].
  rewrite forallb_forall in *. intros c Hc. apply H. now apply in_rev.
Qed.

Lemma int_digits_digits l :
  forallb is_digit l = true ->
  forall acc n b, l <> [] \/ b = true ->
  int_digits l acc n b = Some (decimal_from acc l, (n + List.length l)%nat).
Proof.
  induction l as [|c l IH]; simpl; intros H acc n b Hne.
  - destruct Hne as [Hne| ->]; [now elim Hne|]. now rewrite Nat.add_0_r.
  - apply andb_prop in H. destruct H as [Hc Hl].
    unfold is_digit in Hc. unfold decimal_from. simpl.
    destruct (digit_of c) as [d|] eqn:Ed; [|discriminate].
    rewrite (IH Hl); [|now right]. unfold decimal_from. f_equal. f_equal. lia.
Qed.

Lemma split_sign_digit c (l : list ascii) :
  is_digit c = true -> split_sign (c :: l) = (false, c :: l).
Proof.
  intros H. unfold split_sign.
  destruct (Ascii.eqb_spec c "-") as [->|_]; [vm_compute in H; discriminate|].
  destruct (Ascii.eqb_spec c "+") as [->|_]; [vm_compute in H; discriminate|].
  reflexivity.
Qed.

Lemma length_list_ascii s : List.length (list_ascii_of_string s) = String.length s.
Proof. induction s; simpl; congruence. Qed.

(** [int] reads a non-empty string of decimal digits as the number it
    denotes, unless the interpreter's limit on digits refuses it. *)
Lemma int_of_str_digits max ds :
  ds <> EmptyString ->
  forallb is_digit (list_ascii_of_string ds) = true ->
  max = O \/ (String.length ds <= max)%nat ->
  int_of_str max ds = Ok (decimal ds).
Proof.
  intros Hne Hd Hmax. unfold int_of_str.
  rewrite (strip_digits _ Hd).
  destruct ds as [|c ds]; [now elim Hne|].
  change (list_ascii_of_string (String c ds)) with (c :: list_ascii_of_string ds) in *.
  assert (Hc : is_digit c = true) by (simpl in Hd; now apply andb_prop in Hd).
  rewrite (split_sign_digit c _ Hc).
  rewrite (int_digits_digits _ Hd); [|left; discriminate].
  change (List.length (c :: list_ascii_of_string ds))
    with (S (List.length (list_ascii_of_string ds))).
  rewrite length_list_ascii. simpl String.length in Hmax.
  replace (negb (max =? 0)%nat && (max <? 0 + S (String.length ds))%nat) with false.
  - reflexivity.
  - symmetry. destruct Hmax as [-> | Hle]; [reflexivity|].
    apply andb_false_iff. right. apply Nat.ltb_ge. lia.
Qed.

End PyFacts.

(* ================================================================== *)
(** * Properties of api/models.py                                       *)
(* ================================================================== *)

Module ModelsFacts.

Import PyFacts.

Section WithRuntime.
Context {RT : Runtime}.

(** ** [from_dict] *)

Lemma parse_date_published_absent d :
  lookup "datePublished" d = None -> parse_date_published (VDict d) = Ok None.
Proof.
  intros H. unfold parse_date_published, contains, has_key. now rewrite H.
Qed.

Lemma parse_date_published_str d s :
  lookup "datePublished" d = Some (VStr s) ->
  parse_date_published (VDict d) = Ok (fromisoformat (str_rstrip "Z" s)).
Proof.
  intros H. unfold parse_date_published, contains, has_key, getitem. rewrite H.
  cbn [bind rstrip try_except]. now destruct (fromisoformat (str_rstrip "Z" s)).
Qed.

Lemma parse_date_published_not_str d v :
  lookup "datePublished" d = Some v -> (forall s, v <> VStr s) ->
  parse_date_published (VDict d) = Raise AttributeError.
Proof.
  intros H N. unfold parse_date_published, contains, has_key, getitem. rewrite H.
  destruct v; try reflexivity. now elim (N s).
Qed.

Lemma convert_content_size_raises v e :
  convert_content_size v = Raise e -> e = ValueError.
Proof.
  unfold convert_content_size. destruct v; try discriminate.
  destruct (str_contains " B" s); [|discriminate].
  unfold int_of_str.
  destruct (split_sign _) as [neg ds].
  destruct (int_digits ds 0 0 false) as [[z n]|]; cbn.
  - destruct (negb _ && _); cbn; [now intros [= <-]|discriminate].
  - now intros [= <-].
Qed.

(** On a dict, [from_dict] is the conversion of [contentSize], the parse
    of [datePublished], and lookups. *)
Lemma from_dict_dict d :
  from_dict (VDict d) =
  let? size := convert_content_size (dict_get d "contentSize" VNone) in
  let? date := parse_date_published (VDict d) in
  Ok {| content_url := dict_get d "contentUrl" (VStr "");
        name := dict_get d "name" (VStr "");
        width := dict_get d "width" (VInt 0);
        height := dict_get d "height" (VInt 0);
        content_size := size;
        encoding_format := dict_get d "encodingFormat" VNone;
        host_page_url := dict_get d "hostPageUrl" VNone;
        thumbnail_url := dict_get d "thumbnailUrl" VNone;
        created_date := date;
        content_type := dict_get d "contentType" VNone;
        accentColor := dict_get d "accentColor" VNone;
        _raw_data := VDict d |}.
Proof. reflexivity. Qed.

Lemma from_dict_not_dict v :
  (forall d, v <> VDict d) -> from_dict v = Raise AttributeError.
Proof. intros N. destruct v; try reflexivity. now elim (N d). Qed.

(** Whatever [from_dict] raises derives from [Exception]. *)
Lemma from_dict_raises v e :
  from_dict v = Raise e -> e = AttributeError \/ e = ValueError.
Proof.
  destruct v; try (cbn; intros [= <-]; now left).
  rewrite from_dict_dict.
  destruct (convert_content_size _) as [size|e1] eqn:Es; cbn [bind].
  - destruct (parse_date_published (VDict d)) as [date|e2] eqn:Ed; cbn [bind];
      [discriminate|].
    intros [= <-]. left.
    unfold parse_date_published, contains, has_key, getitem in Ed.
    destruct (lookup "datePublished" d) as [v|]; [|discriminate].
    destruct v; cbn in Ed; try (now injection Ed as <-).
    destruct (fromisoformat (str_rstrip "Z" s)); cbn in Ed; discriminate.
  - intros [= <-]. right. eapply convert_content_size_raises, Es.
Qed.

Lemma from_dict_raises_Exception v e :
  from_dict v = Raise e -> is_Exception e = true.
Proof. intros H. apply from_dict_raises in H. now destruct H as [-> | ->]. Qed.

(** ** [from_response] *)

(** The images a page yields: those of its items that [from_dict] maps *)
Lemma map_items_spec items images :
  map_items items images =
  Ok (images ++ flat_map (fun item => match from_dict item with
                                      | Ok image => [image]
                                      | Raise _ => []
                                      end) items).
Proof.
  revert images. induction items as [|item rest IH]; intros images; cbn [map_items flat_map].
  - now rewrite app_nil_r.
  - destruct (from_dict item) as [image|e] eqn:E.
    + rewrite IH, <- app_assoc. reflexivity.
    + rewrite (from_dict_raises_Exception _ _ E). apply IH.
Qed.

(** ** [filter_by_size] *)

Lemma meets_size_requirements_int img a b w h :
  width img = VInt w -> height img = VInt h ->
  meets_size_requirements img a b = Ok ((a <=? w) && (b <=? h)).
Proof.
  intros Hw Hh. unfold meets_size_requirements. rewrite Hw, Hh. cbn.
  now destruct (a <=? w).
Qed.

Lemma size_at_least_int img a b :
  has_int_size img -> meets_size_requirements img a b = Ok (size_at_least a b img).
Proof.
  intros (w & h & Hw & Hh). rewrite (meets_size_requirements_int img a b w h Hw Hh).
  unfold size_at_least. now rewrite Hw, Hh.
Qed.

Lemma filter_images_int imgs a b :
  Forall has_int_size imgs ->
  filter_images imgs a b = Ok (filter (size_at_least a b) imgs).
Proof.
  induction 1 as [|img rest Himg _ IH]; cbn [filter_images filter]; [reflexivity|].
  rewrite (size_at_least_int img a b Himg), IH. cbn.
  now destruct (size_at_least a b img).
Qed.

Lemma filter_images_ok imgs a b kept :
  filter_images imgs a b = Ok kept ->
  kept = filter (fun img => match meets_size_requirements img a b with
                            | Ok true => true
                            | _ => false
                            end) imgs.
Proof.
  revert kept. induction imgs as [|img rest IH]; cbn [filter_images filter]; intros kept.
  - now intros [= <-].
  - destruct (meets_size_requirements img a b) as [keep|e]; cbn [bind]; [|discriminate].
    destruct (filter_images rest a b) as [kept'|e]; cbn [bind]; [|discriminate].
    intros [= <-]. rewrite (IH kept' eq_refl). now destruct keep.
Qed.

End WithRuntime.

End ModelsFacts.

(* ================================================================== *)
(** * The mappers: what [from_dict], [from_response] and
      [filter_by_size] guarantee                                        *)
(* ================================================================== *)

Module ModelsSpec.

Import PyFacts ModelsFacts.

Section WithRuntime.
Context {RT : Runtime}.

(** C2, as amended.  [from_dict] returns a record for every dict whose
    [contentSize], when it is a string with [" B"] in it, has an integer
    literal before the first [" B"], and whose [datePublished], when
    present, is a string.  In that record an absent [contentUrl],
    [name], [width] or [height] is [""], [""], [0], [0]; an absent
    optional field is [None]; and [created_date] is what
    [fromisoformat] makes of the date without its trailing [Z]s, [None]
    when it refuses it. *)
Theorem from_dict_returns (d : list (string * value)) :
  (forall s, lookup "contentSize" d = Some (VStr s) ->
             str_contains " B" s = true ->
             exists n, int_of_str int_max_str_digits (str_split_head " B" s) = Ok n) ->
  (forall v, lookup "datePublished" d = Some v -> exists s, v = VStr s) ->
  exists r,
    from_dict (VDict d) = Ok r /\
    (lookup "contentUrl" d = None -> content_url r = VStr "") /\
    (lookup "name" d = None -> name r = VStr "") /\
    (lookup "width" d = None -> width r = VInt 0) /\
    (lookup "height" d = None -> height r = VInt 0) /\
    (lookup "contentSize" d = None -> content_size r = VNone) /\
    (lookup "encodingFormat" d = None -> encoding_format r = VNone) /\
    (lookup "hostPageUrl" d = None -> host_page_url r = VNone) /\
    (lookup "thumbnailUrl" d = None -> thumbnail_url r = VNone) /\
    (lookup "contentType" d = None -> content_type r = VNone) /\
    (lookup "accentColor" d = None -> accentColor r = VNone) /\
    (lookup "datePublished" d = None -> created_date r = None) /\
    (forall s, lookup "datePublished" d = Some (VStr s) ->
               created_date r = fromisoformat (str_rstrip "Z" s)).
Proof.
  intros Hsize Hdate. rewrite from_dict_dict.
  assert (Es : exists size,
             convert_content_size (dict_get d "contentSize" VNone) = Ok size /\
             (lookup "contentSize" d = None -> size = VNone)).
  { unfold dict_get. destruct (lookup "contentSize" d) as [v|] eqn:El.
    - destruct v; try (eexists; split; [reflexivity|discriminate]).
      cbn [convert_content_size]. destruct (str_contains " B" s) eqn:Ec.
      + destruct (Hsize s eq_refl Ec) as [n ->]. eexists; split; [reflexivity|discriminate].
      + eexists; split; [reflexivity|discriminate].
    - exists VNone. split; reflexivity. }
  destruct Es as (size & -> & Hnone). cbn [bind].
  assert (Ed : exists date,
             parse_date_published (VDict d) = Ok date /\
             (lookup "datePublished" d = None -> date = None) /\
             (forall s, lookup "datePublished" d = Some (VStr s) ->
                        date = fromisoformat (str_rstrip "Z" s))).
  { destruct (lookup "datePublished" d) as [v|] eqn:El.
    - destruct (Hdate v eq_refl) as [s ->].
      rewrite (parse_date_published_str d s El). eexists. split; [reflexivity|].
      split; [discriminate|]. now intros s' [= <-].
    - rewrite (parse_date_published_absent d El). exists None.
      split; [reflexivity|]. split; [reflexivity|discriminate]. }
  destruct Ed as (date & -> & Hdnone & Hdstr). cbn [bind].
  eexists. split; [reflexivity|]. cbn.
  repeat split; try (intros H; now rewrite (dict_get_none _ _ _ H)); assumption.
Qed.

(** [from_dict] raises on a [contentSize] with [" B"] in it whose head
    [int] refuses. *)
Lemma from_dict_bad_content_size d s :
  lookup "contentSize" d = Some (VStr s) ->
  str_contains " B" s = true ->
  int_of_str int_max_str_digits (str_split_head " B" s) = Raise ValueError ->
  from_dict (VDict d) = Raise ValueError.
Proof.
  intros El Ec Ei. rewrite from_dict_dict, (dict_get_some _ _ _ _ El).
  cbn [convert_content_size]. now rewrite Ec, Ei.
Qed.

(** C3, as amended.  A [contentSize] that is a string of decimal digits
    followed by [" B"] becomes the number the digits denote (when the
    interpreter's limit on digits allows it); in general a string with
    [" B"] in it becomes what [int] reads before the first [" B"], and
    the mapper raises when [int] does; a string without [" B"] and a
    value that is not a string are kept as they are.  The field of the
    record is the result of that conversion on the raw value, [None]
    when the key is absent. *)
Theorem content_size_mapping :
  (forall ds rest,
      ds <> EmptyString ->
      forallb is_digit (list_ascii_of_string ds) = true ->
      int_max_str_digits = O \/ (String.length ds <= int_max_str_digits)%nat ->
      convert_content_size (VStr (ds ++ " B" ++ rest)) = Ok (VInt (decimal ds))) /\
  (forall s, str_contains " B" s = true ->
      convert_content_size (VStr s) =
      let? n := int_of_str int_max_str_digits (str_split_head " B" s) in Ok (VInt n)) /\
  (forall s, str_contains " B" s = false ->
      convert_content_size (VStr s) = Ok (VStr s)) /\
  (forall v, (forall s, v <> VStr s) -> convert_content_size v = Ok v) /\
  (forall d r, from_dict (VDict d) = Ok r ->
      convert_content_size (dict_get d "contentSize" VNone) = Ok (content_size r)).
Proof.
  split; [|split; [|split; [|split]]].
  - intros ds rest Hne Hd Hmax. cbn [convert_content_size].
    rewrite str_contains_app, (str_split_head_digits ds rest Hd).
    now rewrite (int_of_str_digits _ ds Hne Hd Hmax).
  - intros s Hc. cbn [convert_content_size]. now rewrite Hc.
  - intros s Hc. cbn [convert_content_size]. now rewrite Hc.
  - intros v N. destruct v; try reflexivity. now elim (N s).
  - intros d r. rewrite from_dict_dict.
    destruct (convert_content_size _) as [size|e]; cbn [bind]; [|discriminate].
    destruct (parse_date_published _) as [date|e]; cbn [bind]; [|discriminate].
    now intros [= <-].
Qed.

(** C8.  [from_response] goes through the items of the page (none when
    the key [value] is absent), keeps the records of the items that
    [from_dict] maps, in their order, and returns: an item on which
    [from_dict] raises is left out, and never makes [from_response]
    raise. *)
Theorem from_response_skips_failed_items
    (q : string) (d : list (string * value)) (items : list value) :
  iter (dict_get d "value" (VList [])) = Ok items ->
  exists r,
    from_response q (VDict d) = Ok r /\
    query r = q /\
    images r = flat_map (fun item => match from_dict item with
                                     | Ok image => [image]
                                     | Raise _ => []
                                     end) items /\
    (forall item image,
        In item items -> from_dict item = Ok image -> In image (images r)) /\
    (lookup "value" d = None -> images r = []).
Proof.
  intros Hit. unfold from_response. cbn [get bind]. rewrite Hit. cbn [bind].
  rewrite map_items_spec. cbn [bind app contains].
  assert (En : exists next,
             (if has_key "nextOffset" d then getitem (VDict d) "nextOffset" else Ok VNone)
             = Ok next).
  { unfold has_key, getitem. destruct (lookup "nextOffset" d); eexists; reflexivity. }
  destruct En as [next ->]. cbn [bind].
  eexists. split; [reflexivity|]. cbn [query images].
  split; [reflexivity|]. split; [reflexivity|]. split.
  - intros item image Hin Hok. apply in_flat_map. exists item. split; [exact Hin|].
    rewrite Hok. now left.
  - intros Habs. rewrite (dict_get_none _ _ _ Habs) in Hit. cbn in Hit.
    injection Hit as <-. reflexivity.
Qed.

(** C7.  [filter_by_size] builds a new record and leaves [r] as it
    is.  Whenever it returns, the result has the [query], [next_offset]
    and [total_estimated_matches] of [r], and its images are those of
    [r], in order, on which [meets_size_requirements] answers [True].
    On a result whose images have int [width] and [height] it does
    return, and the images it keeps are those with
    [width >= min_width] and [height >= min_height], bounds included. *)
Theorem filter_by_size_frame (r : SearchResult) (min_width min_height : Z) :
  (forall r',
      filter_by_size r min_width min_height = Ok r' ->
      query r' = query r /\
      next_offset r' = next_offset r /\
      total_estimated_matches r' = total_estimated_matches r /\
      images r' = filter (fun img =>
                            match meets_size_requirements img min_width min_height with
                            | Ok true => true
                            | _ => false
                            end) (images r))
  /\
  (Forall has_int_size (images r) ->
   exists r',
     filter_by_size r min_width min_height = Ok r' /\
     query r' = query r /\
     next_offset r' = next_offset r /\
     total_estimated_matches r' = total_estimated_matches r /\
     images r' = filter (size_at_least min_width min_height) (images r) /\
     (forall img, In img (images r) ->
        meets_size_requirements img min_width min_height
        = Ok (size_at_least min_width min_height img)) /\
     (forall img, In img (images r') <->
        In img (images r) /\
        exists w h, width img = VInt w /\ height img = VInt h /\
                    min_width <= w /\ min_height <= h)).
Proof.
  split.
  - intros r'. unfold filter_by_size.
    destruct (filter_images (images r) min_width min_height) as [kept|e] eqn:Ef;
      cbn [bind]; [|discriminate].
    intros [= <-]. cbn [query images next_offset total_estimated_matches].
    repeat (split; [reflexivity|]). now apply filter_images_ok.
  - intros Hint. unfold filter_by_size. rewrite (filter_images_int _ _ _ Hint). cbn [bind].
    eexists. split; [reflexivity|]. cbn [query images next_offset total_estimated_matches].
    repeat (split; [reflexivity|]). split.
    + intros img Hin. apply size_at_least_int.
      rewrite Forall_forall in Hint. now apply Hint.
    + intros img. rewrite filter_In. split.
      * intros [Hin Hs]. split; [exact Hin|].
        rewrite Forall_forall in Hint. destruct (Hint img Hin) as (w & h & Hw & Hh).
        exists w, h. unfold size_at_least in Hs. rewrite Hw, Hh in Hs.
        apply andb_prop in Hs. destruct Hs as [H1 H2].
        apply Z.leb_le in H1, H2. auto.
      * intros [Hin (w & h & Hw & Hh & H1 & H2)]. split; [exact Hin|].
        unfold size_at_least. rewrite Hw, Hh.
        apply andb_true_intro. split; now apply Z.leb_le.
Qed.

End WithRuntime.

(** The claim C2 as the specification states it fails: [int] refuses
    ["abc"], and [from_dict] raises [ValueError] on
    [{"contentSize": "abc B"}]. *)
Lemma from_dict_can_raise :
  ~ (forall RT : Runtime,
        exists r, @from_dict RT (VDict [("contentSize", VStr "abc B")]) = Ok r).
Proof.
  intros H. destruct (H runtime) as [r Hr].
  rewrite (@from_dict_bad_content_size runtime _ "abc B") in Hr;
    [discriminate|reflexivity|reflexivity|reflexivity].
Qed.

(** The claim C3 as the specification states it fails: the
    [contentSize] ["bad"] is kept, it does not become [None]. *)
Lemma content_size_bad_is_kept :
  ~ (forall (RT : Runtime) r,
        @from_dict RT (VDict [("contentSize", VStr "bad")]) = Ok r ->
        content_size r = VNone).
Proof.
  intros H.
  assert (E : exists r, @from_dict runtime (VDict [("contentSize", VStr "bad")]) = Ok r
                        /\ content_size r = VStr "bad").
  { rewrite from_dict_dict. eexists. split; reflexivity. }
  destruct E as (r & Hr & Hsize).
  rewrite (H runtime r Hr) in Hsize. discriminate.
Qed.

Lemma from_dict_returns_witness :
  exists r,
    @from_dict runtime (VDict sample_item) = Ok r /\
    content_url r = VStr "" /\ width r = VInt 0 /\ height r = VInt 0 /\
    encoding_format r = VNone /\
    created_date r = Some {| year := 2023; month := 5; day := 1;
                             hour := 0; minute := 0; second := 0 |}.
Proof.
  destruct (@from_dict_returns runtime sample_item) as (r & Hr & H).
  - intros s E Hc. injection E as <-. eexists. vm_compute. reflexivity.
  - intros v E. injection E as <-. eexists. reflexivity.
  - exists r. split; [exact Hr|].
    destruct H as (H1 & _ & H3 & H4 & _ & H6 & _ & _ & _ & _ & _ & H12).
    repeat split; try (now (apply H1 || apply H3 || apply H4 || apply H6)).
    rewrite (H12 _ eq_refl). reflexivity.
Defined.

Lemma content_size_mapping_witness :
  @convert_content_size runtime (VStr "102400 B") = Ok (VInt 102400) /\
  @convert_content_size runtime (VStr "12 Bytes") = Ok (VInt 12) /\
  @convert_content_size runtime (VStr "bad") = Ok (VStr "bad") /\
  @convert_content_size runtime (VInt 204800) = Ok (VInt 204800) /\
  @convert_content_size runtime VNone = Ok VNone.
Proof.
  destruct (@content_size_mapping runtime) as (Hd & _ & Hs & Hv & _).
  split; [|split; [|split; [|split]]].
  - apply (Hd "102400" ""); [discriminate|reflexivity|right; vm_compute; lia].
  - apply (Hd "12" "ytes"); [discriminate|reflexivity|right; vm_compute; lia].
  - apply Hs. reflexivity.
  - apply Hv. discriminate.
  - apply Hv. discriminate.
Defined.

Lemma from_response_skips_failed_items_witness :
  exists r,
    @from_response runtime "cats" (VDict sample_response) = Ok r /\
    map name (images r) = [VStr "a"; VStr "d"].
Proof.
  destruct (@from_response_skips_failed_items runtime "cats" sample_response _ eq_refl)
    as (r & Hr & _ & Himages & _).
  exists r. split; [exact Hr|]. rewrite Himages. reflexivity.
Defined.

Lemma filter_by_size_frame_witness :
  exists r',
    filter_by_size sample_result 400 400 = Ok r' /\
    query r' = "cats" /\ next_offset r' = VInt 35 /\
    total_estimated_matches r' = VInt 1000 /\
    images r' = [sample_image (VInt 400) (VInt 400);
                 sample_image (VInt 1024) (VInt 768)].
Proof.
  destruct (proj2 (filter_by_size_frame sample_result 400 400))
    as (r' & Hr & Hq & Hn & Ht & Hi & _).
  - repeat constructor; eexists; eexists; split; reflexivity.
  - exists r'. repeat split; assumption.
Defined.

End ModelsSpec.

(* ================================================================== *)
(** * The error classifier                                              *)
(* ================================================================== *)

Module ExceptionsSpec.

Import Exceptions.

(** [handle_bing_error] once the message is known to be the string [m] *)
Lemma handle_bing_error_with_message status body has m :
  match body with
  | VDict _ => contains "error" body
  | _ => Ok false
  end = Ok has ->
  (if has then
     let? error_data := getitem body "error" in
     let? has_message := contains "message" error_data in
     if has_message then getitem error_data "message"
     else Ok (VStr "Unknown Bing API error")
   else Ok (VStr "Unknown Bing API error")) = Ok (VStr m) ->
  handle_bing_error status body =
  Ok {| class := class_of status;
        message := (prefix_of status ++ m)%string;
        status_code := status;
        response := body |}.
Proof.
  intros H1 H2. unfold handle_bing_error. rewrite H1. cbn [bind]. rewrite H2. cbn [bind].
  unfold prefix_of, class_of.
  destruct (status =? 401); [reflexivity|].
  destruct (status =? 429); reflexivity.
Qed.

Lemma handle_bing_error_api_message status body m :
  api_message body m ->
  handle_bing_error status body =
  Ok {| class := class_of status;
        message := (prefix_of status ++ m)%string;
        status_code := status;
        response := body |}.
Proof.
  intros [d e m' He Hm].
  apply handle_bing_error_with_message with (has := true).
  - cbn. unfold has_key. now rewrite He.
  - cbn. rewrite He. cbn. unfold has_key. now rewrite Hm.
Qed.

Lemma handle_bing_error_no_message status body :
  no_api_message body ->
  handle_bing_error status body =
  Ok {| class := class_of status;
        message := (prefix_of status ++ "Unknown Bing API error")%string;
        status_code := status;
        response := body |}.
Proof.
  intros [v N | d He | d error_data He Hm].
  - apply handle_bing_error_with_message with (has := false); [|reflexivity].
    destruct v; try reflexivity. now elim (N d).
  - apply handle_bing_error_with_message with (has := false); [|reflexivity].
    cbn. unfold has_key. now rewrite He.
  - apply handle_bing_error_with_message with (has := true).
    + cbn. unfold has_key. now rewrite He.
    + cbn. rewrite He. cbn. now rewrite Hm.
Qed.

(** Looking for ["message"] in an ["error"] that is no container raises. *)
Lemma handle_bing_error_not_a_container status d error_data :
  lookup "error" d = Some error_data ->
  not_a_container error_data ->
  handle_bing_error status (VDict d) = Raise TypeError.
Proof.
  intros He Hn. unfold handle_bing_error. cbn [contains bind]. unfold has_key.
  rewrite He. cbn [getitem bind]. rewrite He. cbn [bind].
  destruct error_data; try contradiction; reflexivity.
Qed.

Lemma class_of_cases status :
  (class_of status = BingAuthenticationError <-> status = 401) /\
  (class_of status = BingRateLimitError <-> status = 429) /\
  (class_of status = BingSearchError <-> status <> 401 /\ status <> 429).
Proof.
  unfold class_of.
  destruct (Z.eqb_spec status 401) as [->|N1].
  - repeat split; try discriminate; try reflexivity; intros; lia.
  - destruct (Z.eqb_spec status 429) as [->|N2].
    + repeat split; try discriminate; try reflexivity; intros; lia.
    + repeat split; try discriminate; try reflexivity; intros; try lia; assumption.
Qed.

(** C4, as amended.  When the body carries no message, the message of
    the classified error is the prefix of its class followed by the
    literal ["Unknown Bing API error"]. *)
Theorem handle_bing_error_fallback (status : Z) (body : value) :
  no_api_message body ->
  exists err,
    handle_bing_error status body = Ok err /\
    (status = 401 ->
       message err = "Authentication failed: Unknown Bing API error") /\
    (status = 429 ->
       message err = "Rate limit exceeded: Unknown Bing API error") /\
    (status <> 401 -> status <> 429 ->
       message err =
       ("Search error (" ++ str_of_int status ++ "): Unknown Bing API error")%string).
Proof.
  intros H. rewrite (handle_bing_error_no_message status body H).
  eexists. split; [reflexivity|]. cbn [message]. unfold prefix_of, class_of.
  split; [|split].
  - now intros ->.
  - now intros ->.
  - intros N1 N2.
    destruct (Z.eqb_spec status 401) as [E|_]; [now elim N1|].
    destruct (Z.eqb_spec status 429) as [E|_]; [now elim N2|].
    rewrite !PyFacts.str_append_assoc. reflexivity.
Qed.

(** What the classifier returns where it returns.  For a body that
    carries the message [m], or that carries none and [m] is the
    fallback, the classifier returns an error whose class is
    [BingAuthenticationError] exactly for status 401,
    [BingRateLimitError] exactly for 429 and [BingSearchError] for every
    other status, whose message is [m] after the prefix of the class, and
    which holds the status code and the body.  For a body whose
    ["error"] is [None], a boolean or a number it raises [TypeError]. *)
Theorem handle_bing_error_classifies (status : Z) (body : value) :
  (forall m,
      api_message body m \/ (no_api_message body /\ m = "Unknown Bing API error") ->
      exists err,
        handle_bing_error status body = Ok err /\
        (class err = BingAuthenticationError <-> status = 401) /\
        (class err = BingRateLimitError <-> status = 429) /\
        (class err = BingSearchError <-> status <> 401 /\ status <> 429) /\
        message err =
          (match class err with
           | BingAuthenticationError => "Authentication failed: "
           | BingRateLimitError => "Rate limit exceeded: "
           | _ => "Search error (" ++ str_of_int status ++ "): "
           end ++ m)%string /\
        status_code err = status /\
        response err = body)
  /\
  (forall d error_data,
      body = VDict d ->
      lookup "error" d = Some error_data ->
      not_a_container error_data ->
      handle_bing_error status body = Raise TypeError).
Proof.
  split.
  - intros m H.
    assert (E : handle_bing_error status body =
                Ok {| class := class_of status;
                      message := (prefix_of status ++ m)%string;
                      status_code := status;
                      response := body |}).
    { destruct H as [H | [H ->]].
      - now apply handle_bing_error_api_message.
      - now apply handle_bing_error_no_message. }
    rewrite E. eexists. split; [reflexivity|]. cbn [class message status_code response].
    destruct (class_of_cases status) as (H1 & H2 & H3).
    split; [exact H1|]. split; [exact H2|]. split; [exact H3|].
    split; [|split; reflexivity].
    unfold prefix_of. now destruct (class_of status).
  - intros d error_data -> He Hn.
    now apply handle_bing_error_not_a_container with (error_data := error_data).
Qed.

(** The claim C4 as the specification states it fails: the fallback of
    the code is ["Unknown Bing API error"]. *)
Lemma fallback_is_not_unknown_api_error :
  exists err,
    handle_bing_error 429 VNone = Ok err /\
    message err = "Rate limit exceeded: Unknown Bing API error" /\
    message err <> "Rate limit exceeded: Unknown API error".
Proof.
  eexists. split; [reflexivity|]. split; [reflexivity|]. discriminate.
Qed.

(** C5.  The classifier does not return an error for every status code
    and body: it guards the body with [isinstance] and means to keep its
    default message when there is no message to extract, but it does
    not look at the type of [response_data['error']], and on the body
    [{"error": null}] the test ['message' in error_data] raises
    [TypeError] where the claim promises a [BingAuthenticationError]. *)
Lemma handle_bing_error_can_raise :
  handle_bing_error 401 (VDict [("error", VNone)]) = Raise TypeError.
Proof. reflexivity. Qed.

Lemma handle_bing_error_fallback_witness :
  exists err,
    handle_bing_error 429 VNone = Ok err /\
    message err = "Rate limit exceeded: Unknown Bing API error".
Proof.
  destruct (handle_bing_error_fallback 429 VNone) as (err & He & _ & H & _).
  - apply no_message_not_dict. discriminate.
  - exists err. split; [exact He|]. now apply H.
Defined.

Lemma handle_bing_error_classifies_witness :
  exists err,
    handle_bing_error 401 (VDict [("error", VDict [("message", VStr "bad key")])])
    = Ok err /\
    class err = BingAuthenticationError /\
    message err = "Authentication failed: bad key" /\
    status_code err = 401.
Proof.
  destruct (proj1 (handle_bing_error_classifies 401
                     (VDict [("error", VDict [("message", VStr "bad key")])]))
              "bad key")
    as (err & He & Hc & _ & _ & Hm & Hs & _).
  - left. now apply api_message_intro with (e := [("message", VStr "bad key")]).
  - exists err. split; [exact He|].
    assert (C : class err = BingAuthenticationError) by now apply Hc.
    split; [exact C|]. split; [|exact Hs]. rewrite Hm, C. reflexivity.
Defined.

Example handle_bing_error_500 :
  handle_bing_error 500 (VDict []) =
  Ok {| class := BingSearchError;
        message := "Search error (500): Unknown Bing API error";
        status_code := 500;
        response := VDict [] |}.
Proof. reflexivity. Qed.

End ExceptionsSpec.

(* ================================================================== *)
(** * Properties of api/bing_client.py                                  *)
(* ================================================================== *)

Module BingClientFacts.

Import PyFacts ModelsFacts.

Section WithEnv.
Context {RT : Runtime} {E : Env}.

(** ** The retry loop *)

Lemma last_nonempty {A : Type} (l : list A) (a d d' : A) :
  last (a :: l) d = last (a :: l) d'.
Proof.
  revert a. induction l as [|b l IH]; intros a; [reflexivity|].
  change (last (b :: l) d = last (b :: l) d'). apply IH.
Qed.

Lemma requests_get_run req st answer w :
  http_get req (world st) = (answer, w) ->
  requests_get req st =
  (answer, {| world := w; trace := trace st ++ [EvGet req answer]; self := self st |}).
Proof. intros H. unfold requests_get. now rewrite H. Qed.

(** What the loop over the [n] attempts [k], [k + 1], ... does when the
    last of them is attempt [max]: [answers] are the answers to the
    requests it makes, and its result is the last of them. *)
Lemma retry_loop_spec req max n :
  forall k last_exception st,
    Z.of_nat (k + n) = max + 1 \/ n = O ->
    exists answers res st',
      retry_loop req max (map Z.of_nat (seq k n)) last_exception st = (res, st') /\
      (List.length answers <= n)%nat /\
      (n <> O -> answers <> []) /\
      trace st' = trace st ++ backoff_trace req (Z.of_nat k) answers /\
      self st' = self st /\
      (forall a, In a (removelast answers) ->
                 exists e, a = Raise e /\ is_RequestException e = true) /\
      (forall e, last answers (Ok VNone) = Raise e -> is_RequestException e = true ->
                 List.length answers = n) /\
      res = last answers
              (Raise (match last_exception with
                      | Some e => e
                      | None => RequestException "All retry attempts failed"
                      end)).
Proof.
  induction n as [|n IH]; intros k last_exception st Hmax.
  - exists [], (Raise (match last_exception with
                       | Some e => e
                       | None => RequestException "All retry attempts failed"
                       end)), st.
    cbn. rewrite app_nil_r.
    repeat split; try reflexivity; try lia; try contradiction; try discriminate.
  - cbn [seq map retry_loop].
    destruct (http_get req (world st)) as [answer w1] eqn:Eh.
    rewrite (requests_get_run req st answer w1 Eh).
    set (st1 := {| world := w1; trace := trace st ++ [EvGet req answer]; self := self st |}).
    destruct answer as [body|e].
    + (* the attempt succeeds *)
      exists [Ok body], (Ok body), st1. cbn.
      repeat split; try lia; try discriminate; try contradiction.
    + destruct (is_RequestException e) eqn:Ee.
      * (* a transport failure *)
        destruct n as [|n'].
        -- (* of the last attempt *)
           assert (Hk : (Z.of_nat k <? max) = false).
           { apply Z.ltb_ge. destruct Hmax as [H|H]; [lia|discriminate]. }
           rewrite Hk. exists [Raise e], (Raise e), st1. cbn.
           repeat split; try lia; try discriminate; try contradiction.
        -- (* of an earlier attempt: back off and go on *)
           assert (Hk : (Z.of_nat k <? max) = true).
           { apply Z.ltb_lt. destruct Hmax as [H|H]; [lia|discriminate]. }
           rewrite Hk.
           unfold mbind at 1. unfold sleep at 1. cbv beta iota.
           set (st2 := {| world := time_sleep (VInt (2 ^ (Z.of_nat k - 1))) (world st1);
                          trace := trace st1 ++ [EvSleep (VInt (2 ^ (Z.of_nat k - 1)))];
                          self := self st1 |}).
           destruct (IH (S k) (Some e) st2)
             as (answers & res & st' & Hrun & Hlen & Hne & Htr & Hself & Hinit & Hall & Hres).
           { left. destruct Hmax as [H|H]; [lia|discriminate]. }
           specialize (Hne ltac:(discriminate)).
           destruct answers as [|a answers']; [now elim Hne|].
           exists (Raise e :: a :: answers'), res, st'.
           split; [exact Hrun|].
           split; [cbn in *; lia|]. split; [discriminate|].
           split.
           { rewrite Htr. subst st2 st1. cbn [trace].
             rewrite <- !app_assoc. cbn [app backoff_trace].
             replace (Z.of_nat (S k)) with (Z.of_nat k + 1) by lia. reflexivity. }
           split; [rewrite Hself; reflexivity|].
           split.
           { intros x Hx. change (removelast (Raise e :: a :: answers'))
               with (Raise e :: removelast (a :: answers')) in Hx.
             destruct Hx as [<-|Hx]; [now exists e|now apply Hinit]. }
           split.
           { intros e' Hl He'.
             change (last (Raise e :: a :: answers') (Ok VNone))
               with (last (a :: answers') (Ok VNone)) in Hl.
             cbn [List.length] in *. now rewrite (Hall e' Hl He'). }
           rewrite Hres.
           change (last (Raise e :: a :: answers') ?d) with (last (a :: answers') d).
           apply last_nonempty.
      * (* another exception leaves the loop *)
        exists [Raise e], (Raise e), st1. cbn.
        repeat split; try lia; try discriminate; try contradiction.
        intros e' [= <-]. congruence.
Qed.

Lemma range_from_1_seq n : range_from_1 n = map Z.of_nat (seq 1 (Z.to_nat n)).
Proof. reflexivity. Qed.


(** C6.  [_make_request_with_retries] makes at most [max_retries]
    requests; every request but the last one met a transport failure and
    was followed by a sleep of [2 ^ (attempt - 1)] seconds (1, 2, 4, ...)
    and then by the next request; the result is the answer to the last
    request: the decoded body of the first request that succeeds, or
    the failure of request number [max_retries], the last one recorded.
    In particular a transport that fails twice and then answers gives
    its answer after sleeps of 1 and 2 seconds. *)
Theorem make_request_with_retries_backoff
    (params headers : list (string * value)) (st : state) :
  let req := {| url := endpoint (self st); params := params;
                headers := headers; timeout := 30 |} in
  (exists answers res st',
      _make_request_with_retries params headers st = (res, st') /\
      Z.of_nat (List.length answers) <= Z.max 0 (max_retries (self st)) /\
      (1 <= max_retries (self st) -> answers <> []) /\
      trace st' = trace st ++ backoff_trace req 1 answers /\
      (forall a, In a (removelast answers) ->
                 exists e, a = Raise e /\ is_RequestException e = true) /\
      (forall e, last answers (Ok VNone) = Raise e -> is_RequestException e = true ->
                 Z.of_nat (List.length answers) = max_retries (self st)) /\
      res = last answers (Raise (RequestException "All retry attempts failed")))
  /\
  (forall e1 e2 body w1 w2 w3,
      3 <= max_retries (self st) ->
      is_RequestException e1 = true ->
      is_RequestException e2 = true ->
      http_get req (world st) = (Raise e1, w1) ->
      http_get req (time_sleep (VInt 1) w1) = (Raise e2, w2) ->
      http_get req (time_sleep (VInt 2) w2) = (Ok body, w3) ->
      _make_request_with_retries params headers st =
      (Ok body,
       {| world := w3;
          trace := trace st ++ [EvGet req (Raise e1); EvSleep (VInt 1);
                                EvGet req (Raise e2); EvSleep (VInt 2);
                                EvGet req (Ok body)];
          self := self st |})).
Proof.
  intros req. split.
  - unfold _make_request_with_retries, mbind, get_self. fold req.
    rewrite range_from_1_seq.
    destruct (retry_loop_spec req (max_retries (self st)) (Z.to_nat (max_retries (self st)))
                1%nat None st)
      as (answers & res & st' & Hrun & Hlen & Hne & Htr & _ & Hinit & Hall & Hres).
    { destruct (Z.to_nat (max_retries (self st))) eqn:En; [now right|left; lia]. }
    exists answers, res, st'.
    split; [exact Hrun|]. split; [lia|]. split; [intros H; apply Hne; lia|].
    split; [exact Htr|]. split; [exact Hinit|]. split; [|exact Hres].
    intros e Hl He. rewrite (Hall e Hl He).
    assert (answers <> []) by (intros ->; discriminate Hl).
    destruct (Z.to_nat (max_retries (self st))) eqn:En; [|lia].
    destruct answers; [contradiction|cbn in Hlen; lia].
  - intros e1 e2 body w1 w2 w3 Hmax He1 He2 H1 H2 H3.
    unfold _make_request_with_retries, mbind, get_self. fold req.
    rewrite range_from_1_seq.
    destruct (Z.to_nat (max_retries (self st))) as [|[|[|m]]] eqn:En; try lia.
    cbn [seq map retry_loop].
    rewrite (requests_get_run req st _ _ H1), He1.
    replace (Z.of_nat 1 <? max_retries (self st)) with true by (symmetry; apply Z.ltb_lt; lia).
    unfold mbind at 1. unfold sleep at 1. cbv beta iota.
    change (2 ^ (Z.of_nat 1 - 1)) with 1. cbn [world trace self].
    match goal with
    | |- context [requests_get req ?s] => rewrite (requests_get_run req s _ _ H2)
    end.
    rewrite He2.
    replace (Z.of_nat 2 <? max_retries (self st)) with true by (symmetry; apply Z.ltb_lt; lia).
    unfold mbind at 1. unfold sleep at 1. cbv beta iota.
    change (2 ^ (Z.of_nat 2 - 1)) with 2. cbn [world trace self].
    match goal with
    | |- context [requests_get req ?s] => rewrite (requests_get_run req s _ _ H3)
    end.
    cbn [world trace self]. rewrite <- !app_assoc. reflexivity.
Qed.

(** ** The requests of [search] *)

Lemma lookup_dict_set_other k k' v d :
  k <> k' -> lookup k (dict_set k' v d) = lookup k d.
Proof.
  intros N. induction d as [|[k0 v0] d IH]; cbn [dict_set lookup].
  - destruct (String.eqb_spec k k'); [contradiction|reflexivity].
  - destruct (String.eqb_spec k' k0) as [->|N0]; cbn [lookup].
    + destruct (String.eqb_spec k k0); [contradiction|reflexivity].
    + destruct (String.eqb_spec k k0); [reflexivity|exact IH].
Qed.




Lemma backoff_trace_gets req :
  forall answers k req' a,
    In (EvGet req' a) (backoff_trace req k answers) -> req' = req.
Proof.
  induction answers as [|a0 rest IH]; intros k req' a; cbn [backoff_trace].
  - contradiction.
  - intros [H|H]; [now injection H as <- _|].
    destruct rest as [|a1 rest']; [contradiction|].
    destruct H as [H|H]; [discriminate|]. now apply IH in H.
Qed.




End WithEnv.

End BingClientFacts.

(* ================================================================== *)
(** * Pagination                                                        *)
(* ================================================================== *)

Module PaginationFacts.

Section WithEnv.
Context {RT : Runtime} {E : Env}.

Variables (query : string) (max_images : Z) (kwargs : list (string * value)).

Lemma last_page_snoc (p : page_fetch) (pages : list page_fetch)
    (d : option SearchResult) :
  match rev (p :: pages) with
  | p' :: _ => Some (fetched p')
  | [] => d
  end =
  match rev pages with
  | p' :: _ => Some (fetched p')
  | [] => Some (fetched p)
  end.
Proof. cbn [rev]. now destruct (rev pages). Qed.

(** The loop of [search_all] fetches pages as [paginates] says, and with
    enough fuel it ends: with the exception of the call that raised, or
    with the images of the pages added to [all_images] and the last page
    in [result]. *)
Lemma search_all_loop_spec :
  forall fuel l st,
    (Z.to_nat max_images - List.length (all_images l) < fuel)%nat ->
    exists pages err st',
      paginates query max_images kwargs (all_images l) (offset l) st pages err st' /\
      match err with
      | Some e =>
          search_all_loop fuel query max_images kwargs (Z.min 150 max_images) l st
          = (Raise e, st')
      | None =>
          exists l',
            search_all_loop fuel query max_images kwargs (Z.min 150 max_images) l st
            = (Ok (Some l'), st') /\
            all_images l' = all_images l ++ images_of pages /\
            result l' = match rev pages with
                        | p :: _ => Some (fetched p)
                        | [] => result l
                        end
      end.
Proof.
  induction fuel as [|fuel IH]; intros l st Hfuel; [lia|].
  cbn [search_all_loop].
  destruct (Z.ltb_spec (Z.of_nat (List.length (all_images l))) max_images) as [Hlt|Hge].
  - cbv zeta. unfold mbind.
    destruct (call_search query
                (Z.min (max_images - Z.of_nat (List.length (all_images l)))
                   (Z.min 150 max_images))
                (offset l) kwargs st) as [[r|e] st1] eqn:Ecall.
    + destruct (truthy (next_offset r)) eqn:Et; cbn [negb orb].
      * destruct (images r) as [|img imgs] eqn:Ei.
        -- (* a page without images ends the loop *)
           eexists [_], None, st1. split.
           { eapply paginates_last; [exact Hlt|exact Ecall|now right]. }
           eexists. split; [reflexivity|]. cbn. now rewrite Ei.
        -- (* go on with the next page *)
           rewrite <- Ei.
           destruct (IH {| all_images := all_images l ++ images r;
                           offset := next_offset r;
                           result := Some r |} st1)
             as (pages & err & st2 & Hpag & Hrun).
           { cbn [all_images]. rewrite length_app, Ei. cbn [List.length]. lia. }
           cbn [all_images offset] in Hpag.
           eexists (_ :: pages), err, st2. split.
           { eapply paginates_more; [exact Hlt|exact Ecall|exact Et| |exact Hpag].
             rewrite Ei. discriminate. }
           destruct err as [e|]; [exact Hrun|].
           destruct Hrun as (l' & Hrun & Hall & Hres).
           exists l'. split; [exact Hrun|]. cbn [all_images result] in Hall, Hres.
           split.
           ++ rewrite Hall, <- app_assoc. reflexivity.
           ++ rewrite Hres. symmetry. apply last_page_snoc.
      * (* a page without a truthy next_offset ends the loop *)
        eexists [_], None, st1. split.
        { eapply paginates_last; [exact Hlt|exact Ecall|now left]. }
        eexists. split; [reflexivity|]. cbn. now rewrite app_nil_r.
    + (* search raises *)
      exists [], (Some e), st1. split; [|reflexivity].
      eapply paginates_raise; [exact Hlt|exact Ecall].
  - (* enough images *)
    exists [], None, st. split.
    + now apply paginates_enough.
    + exists l. split; [reflexivity|]. cbn. now rewrite app_nil_r.
Qed.

(** In a pagination that starts below [max_images], either a call
    raised or a page was fetched. *)
Lemma paginates_nonempty collected offset st pages st' :
  paginates query max_images kwargs collected offset st pages None st' ->
  Z.of_nat (List.length collected) < max_images ->
  pages <> [].
Proof.
  intros H Hlt. inversion H; subst; try discriminate. lia.
Qed.

(** A page without a truthy [next_offset] is the last one fetched, and
    so is a page without images. *)
Lemma paginates_stops collected offset st pages err st' :
  paginates query max_images kwargs collected offset st pages err st' ->
  forall before p after,
    pages = before ++ p :: after ->
    truthy (next_offset (fetched p)) = false \/ images (fetched p) = [] ->
    after = [] /\ err = None.
Proof.
  induction 1 as [collected offset st Hge
                 |collected offset st e st' Hlt Hcall
                 |collected offset st r st' Hlt Hcall Hstop
                 |collected offset st r st' pages err st'' Hlt Hcall Ht Hi Hrest IH];
    intros before p after Hpages Hp.
  - now destruct before.
  - now destruct before.
  - destruct before as [|b before].
    + injection Hpages as _ <-. now split.
    + injection Hpages as _ Hnil. now destruct before.
  - destruct before as [|b before].
    + injection Hpages as <- _. cbn [fetched] in Hp.
      destruct Hp as [Hp|Hp]; [congruence|contradiction].
    + injection Hpages as _ Hpages. eapply IH; eassumption.
Qed.

(** [search_all] on a positive [max_images]: it ends, and it is the
    pagination from no image and offset 0. *)
Lemma search_all_spec st :
  1 <= max_images ->
  existsb (fun k => has_key k kwargs) ["self"; "query"; "max_images"] = false ->
  exists pages err st',
    paginates query max_images kwargs [] (VInt 0) st pages err st' /\
    match err with
    | Some e => search_all query max_images kwargs st = (Raise e, st')
    | None =>
        exists r,
          search_all query max_images kwargs st = (Ok (Some r), st') /\
          Models.query r = query /\
          images r = firstn (Z.to_nat max_images) (images_of pages) /\
          next_offset r = VNone /\
          Some (total_estimated_matches r) = last_total pages
    end.
Proof.
  intros Hmax Hkw. unfold search_all. rewrite Hkw. unfold mbind.
  destruct (search_all_loop_spec (S (Z.to_nat max_images))
              {| all_images := []; offset := VInt 0; result := None |} st)
    as (pages & err & st' & Hpag & Hrun).
  { cbn. lia. }
  cbn [all_images offset result] in Hpag, Hrun.
  exists pages, err, st'. split; [exact Hpag|].
  destruct err as [e|].
  - now rewrite Hrun.
  - destruct Hrun as (l' & -> & Hall & Hres).
    assert (Hne : pages <> []).
    { eapply paginates_nonempty; [exact Hpag|cbn; lia]. }
    unfold last_total.
    destruct (rev pages) as [|p rest] eqn:Er.
    { apply (f_equal (@rev _)) in Er. rewrite rev_involutive in Er. now elim Hne. }
    rewrite Hres. unfold ret. eexists. split; [reflexivity|].
    cbn [Models.query images next_offset total_estimated_matches].
    split; [reflexivity|]. split; [|split; reflexivity].
    rewrite Hall. cbn [app]. unfold slice_to.
    destruct (Z.ltb_spec max_images 0); [lia|reflexivity].
Qed.

End WithEnv.

End PaginationFacts.

(* ================================================================== *)
(** * The search client: what [search_all] and
      [_make_request_with_retries] guarantee                            *)
(* ================================================================== *)

Module BingClientSpec.

Import PyFacts ModelsFacts BingClientFacts PaginationFacts.


(** C9.  A page whose [next_offset] is not truthy (0, like [None]) ends
    the pagination, however few images there are: the pass through the
    loop that fetched it leaves the loop in the state the call of
    [search] left, so that no other request is made; when it is the
    first page, [search_all] returns its images; and in every run of
    [search_all] such a page is the last one fetched.  [from_response]
    gives such a [next_offset] when the key [nextOffset] is absent and
    when its value is not truthy. *)
Theorem falsy_next_offset_ends_pagination
    (RT : Runtime) (E : Env) (query : string) (max_images : Z)
    (kwargs : list (string * value)) :
  (forall fuel l st r st',
      Z.of_nat (List.length (all_images l)) < max_images ->
      call_search query
        (Z.min (max_images - Z.of_nat (List.length (all_images l))) (Z.min 150 max_images))
        (offset l) kwargs st = (Ok r, st') ->
      truthy (next_offset r) = false ->
      search_all_loop (S fuel) query max_images kwargs (Z.min 150 max_images) l st
      = (Ok (Some {| all_images := all_images l ++ images r;
                     offset := offset l;
                     result := Some r |}), st'))
  /\
  (forall st r st',
      1 <= max_images ->
      bindable kwargs ->
      call_search query (Z.min max_images (Z.min 150 max_images)) (VInt 0) kwargs st
      = (Ok r, st') ->
      truthy (next_offset r) = false ->
      search_all query max_images kwargs st
      = (Ok (Some {| Models.query := query;
                     images := firstn (Z.to_nat max_images) (images r);
                     next_offset := VNone;
                     total_estimated_matches := total_estimated_matches r |}), st'))
  /\
  (forall st,
      1 <= max_images ->
      bindable kwargs ->
      exists pages err st',
        paginates query max_images kwargs [] (VInt 0) st pages err st' /\
        snd (search_all query max_images kwargs st) = st' /\
        (forall before p after,
            pages = before ++ p :: after ->
            truthy (next_offset (fetched p)) = false ->
            after = [] /\ err = None /\
            exists r, fst (search_all query max_images kwargs st) = Ok (Some r)))
  /\
  (forall q d r,
      from_response q (VDict d) = Ok r ->
      lookup "nextOffset" d = None \/
      (exists v, lookup "nextOffset" d = Some v /\ truthy v = false) ->
      truthy (next_offset r) = false).
Proof.
  split; [|split; [|split]].
  - intros fuel l st r st' Hlt Hcall Hfalsy.
    cbn [search_all_loop]. cbv zeta. unfold mbind.
    destruct (Z.ltb_spec (Z.of_nat (List.length (all_images l))) max_images); [|lia].
    rewrite Hcall, Hfalsy. reflexivity.
  - intros st r st' Hmax Hkw Hcall Hfalsy.
    unfold search_all. unfold bindable in Hkw. rewrite Hkw. unfold mbind at 1.
    cbn [search_all_loop]. cbv zeta. unfold mbind.
    cbn [all_images List.length Z.of_nat offset].
    destruct (Z.ltb_spec 0 max_images); [|lia].
    rewrite Z.sub_0_r, Hcall, Hfalsy. cbn [negb orb ret all_images result app].
    unfold slice_to. destruct (Z.ltb_spec max_images 0); [lia|reflexivity].
  - intros st Hmax Hkw.
    destruct (search_all_spec query max_images kwargs st Hmax Hkw)
      as (pages & err & st' & Hpag & Hrun).
    exists pages, err, st'. split; [exact Hpag|]. split.
    + destruct err as [e|]; [now rewrite Hrun|].
      destruct Hrun as (r & -> & _). reflexivity.
    + intros before p after Hpages Hfalsy.
      destruct (paginates_stops _ _ _ _ _ _ _ _ _ Hpag before p after Hpages
                  (or_introl Hfalsy)) as [-> ->].
      split; [reflexivity|]. split; [reflexivity|].
      destruct Hrun as (r & -> & _). now exists r.
  - intros q d r Hresp Hnext.
    unfold from_response in Hresp. cbn [get bind contains] in Hresp.
    destruct (iter _) as [items|e]; cbn [bind] in Hresp; [|discriminate].
    rewrite map_items_spec in Hresp. cbn [bind] in Hresp.
    unfold has_key, getitem in Hresp.
    destruct Hnext as [Habs|(v & Hv & Hfalsy)].
    + rewrite Habs in Hresp. cbn [bind] in Hresp. now injection Hresp as <-.
    + rewrite Hv in Hresp. cbn [bind] in Hresp. now injection Hresp as <-.
Qed.

(** C10.  For [max_images <= 0], [search_all] makes no request, and not
    even a call to the clock: it raises [UnboundLocalError], for its
    variable [result], in the state it was called in. *)
Theorem search_all_nonpositive
    (RT : Runtime) (E : Env) (query : string) (max_images : Z)
    (kwargs : list (string * value)) (st : state) :
  max_images <= 0 ->
  bindable kwargs ->
  search_all query max_images kwargs st = (Raise UnboundLocalError, st).
Proof.
  intros Hmax Hkw. unfold search_all. unfold bindable in Hkw. rewrite Hkw.
  unfold mbind. cbn [search_all_loop all_images List.length Z.of_nat].
  destruct (Z.ltb_spec 0 max_images); [lia|]. reflexivity.
Qed.


Lemma falsy_next_offset_ends_pagination_witness :
  let run := @search_all runtime (fake_env pages_next_0) "cats" 120 []
               (fake_start pages_next_0) in
  (exists pages err,
      @paginates runtime (fake_env pages_next_0) "cats" 120 [] [] (VInt 0)
        (fake_start pages_next_0) pages err (snd run)) /\
  image_count (fst run) = Some 50%nat /\
  List.length (gets (trace (snd run))) = 1%nat.
Proof.
  intros run. split.
  - destruct (proj1 (proj2 (proj2 (falsy_next_offset_ends_pagination runtime
                (fake_env pages_next_0) "cats" 120 []))) (fake_start pages_next_0))
      as (pages & err & st' & Hpag & Hst & _).
    + lia.
    + reflexivity.
    + exists pages, err. subst run. rewrite Hst. exact Hpag.
  - split; vm_compute; reflexivity.
Defined.

Lemma search_all_nonpositive_witness :
  @search_all runtime (fake_env pages_of_50) "cats" 0 [] (fake_start pages_of_50)
  = (Raise UnboundLocalError, fake_start pages_of_50).
Proof.
  apply search_all_nonpositive.
  - lia.
  - reflexivity.
Defined.

Lemma make_request_with_retries_backoff_witness :
  exists body st',
    @_make_request_with_retries (fake_env fails_twice) [] [] (fake_start fails_twice)
    = (Ok body, st') /\
    sleeps (trace st') = [VInt 1; VInt 2] /\
    List.length (gets (trace st')) = 3%nat.
Proof.
  eexists. eexists. split.
  - eapply (proj2 (@make_request_with_retries_backoff (fake_env fails_twice) [] []
                    (fake_start fails_twice))
             (RequestException "Read timed out") (RequestException "Read timed out")).
    + cbn. lia.
    + reflexivity.
    + reflexivity.
    + reflexivity.
    + reflexivity.
    + reflexivity.
  - split; reflexivity.
Defined.

End BingClientSpec.

(* ================================================================== *)
(** * More on the mappers                                               *)
(* ================================================================== *)

Module ModelsMore.

Import PyFacts ModelsFacts ModelsDump Exceptions.

Section WithRuntime.
Context {RT : Runtime}.

(** X1.  [from_dict] raises in three cases and in no other: on a value
    that is not a dict ([AttributeError]); on a [contentSize] that is a
    string with [" B"] in it whose head [int] refuses ([ValueError]);
    and, when the [contentSize] went through, on a [datePublished] that
    is present and is not a string ([AttributeError]: the [except]
    clause around the parse names [ValueError] and [TypeError] only). *)
Theorem from_dict_raises_iff :
  (forall v, (forall d, v <> VDict d) -> from_dict v = Raise AttributeError) /\
  (forall d e,
      from_dict (VDict d) = Raise e <->
      (exists s,
          lookup "contentSize" d = Some (VStr s) /\
          str_contains " B" s = true /\
          int_of_str int_max_str_digits (str_split_head " B" s) = Raise ValueError /\
          e = ValueError)
      \/
      ((exists size, convert_content_size (dict_get d "contentSize" VNone) = Ok size) /\
       (exists v, lookup "datePublished" d = Some v /\ (forall s, v <> VStr s)) /\
       e = AttributeError)).
Proof.
  split; [exact from_dict_not_dict|].
  intros d e. rewrite from_dict_dict. split.
  - destruct (convert_content_size (dict_get d "contentSize" VNone)) as [size|e1] eqn:Es;
      cbn [bind].
    + destruct (parse_date_published (VDict d)) as [date|e2] eqn:Ed; cbn [bind];
        [discriminate|].
      intros [= <-]. right. split; [now exists size|].
      destruct (lookup "datePublished" d) as [v|] eqn:El.
      * destruct v;
          try (rewrite (parse_date_published_not_str d _ El) in Ed by discriminate;
               injection Ed as <-;
               split; [eexists; split; [reflexivity|discriminate]|reflexivity]).
        rewrite (parse_date_published_str d s El) in Ed. discriminate.
      * rewrite (parse_date_published_absent d El) in Ed. discriminate.
    + intros [= <-]. left.
      pose proof (convert_content_size_raises _ _ Es) as ->.
      unfold dict_get in Es.
      destruct (lookup "contentSize" d) as [v|]; [|discriminate].
      destruct v; try discriminate. cbn [convert_content_size] in Es.
      destruct (str_contains " B" s) eqn:Ec; [|discriminate].
      exists s. split; [reflexivity|]. split; [exact Ec|]. split; [|reflexivity].
      destruct (int_of_str _ _) as [n|e']; cbn [bind] in Es; [discriminate|].
      now injection Es as ->.
  - intros [(s & El & Ec & Ei & ->) | ((size & Es) & (v & El & Hv) & ->)].
    + rewrite (dict_get_some _ _ _ _ El). cbn [convert_content_size].
      now rewrite Ec, Ei.
    + rewrite Es. cbn [bind].
      now rewrite (parse_date_published_not_str d v El Hv).
Qed.

(** X2.  What [to_dict] writes, [from_dict] does not read back: the
    keys of [to_dict] are in snake case, those [from_dict] looks for in
    camel case, and only [name], [width] and [height] are spelled the
    same.  [from_dict] returns on every [to_dict], with these three
    fields and the defaults everywhere else. *)
Theorem to_dict_not_read_back (isoformat : datetime -> string) (r : ImageMetadata) :
  exists r',
    from_dict (VDict (to_dict isoformat r)) = Ok r' /\
    name r' = name r /\ width r' = width r /\ height r' = height r /\
    content_url r' = VStr "" /\
    content_size r' = VNone /\ encoding_format r' = VNone /\
    host_page_url r' = VNone /\ thumbnail_url r' = VNone /\
    created_date r' = None /\
    content_type r' = VNone /\ accentColor r' = VNone /\
    _raw_data r' = VDict (to_dict isoformat r).
Proof.
  rewrite from_dict_dict.
  rewrite (parse_date_published_absent (to_dict isoformat r)) by reflexivity.
  eexists. split; [reflexivity|]. repeat split.
Qed.

(** X3.  [meets_size_requirements] raises nothing but [TypeError], and
    it raises exactly when [width] is no number, or [width] is large
    enough and [height] is no number: [and] does not look at [height]
    when [width] is too small, and the answer is [False] then. *)
Theorem meets_size_requirements_errors (img : ImageMetadata) (min_width min_height : Z) :
  (forall e, meets_size_requirements img min_width min_height = Raise e -> e = TypeError) /\
  (meets_size_requirements img min_width min_height = Raise TypeError <->
   is_number (width img) = false \/
   (ge_int (width img) min_width = Ok true /\ is_number (height img) = false)) /\
  (ge_int (width img) min_width = Ok false ->
   meets_size_requirements img min_width min_height = Ok false).
Proof.
  unfold meets_size_requirements.
  assert (Hge : forall v n, (exists b, ge_int v n = Ok b /\ is_number v = true) \/
                            (ge_int v n = Raise TypeError /\ is_number v = false)).
  { intros v n. destruct v; cbn; try (left; eexists; split; reflexivity);
      right; split; reflexivity. }
  destruct (Hge (width img) min_width) as [(bw & Ew & Nw) | (Ew & Nw)];
    rewrite Ew; cbn [bind].
  - destruct bw.
    + destruct (Hge (height img) min_height) as [(bh & Eh & Nh) | (Eh & Nh)]; rewrite Eh.
      * split; [discriminate|]. split; [|discriminate].
        split; [discriminate|]. intros [H|[_ H]]; congruence.
      * split; [now intros e [= <-]|]. split; [|discriminate].
        split; [intros _; right; now split|reflexivity].
    + split; [discriminate|]. split; [|reflexivity].
      split; [discriminate|]. intros [H|[H _]]; congruence.
  - split; [now intros e [= <-]|]. split; [|discriminate].
    split; [intros _; now left|reflexivity].
Qed.

(** X4.  [from_response] raises in two cases and in no other: on a
    response that is not a dict ([AttributeError]), and on a dict whose
    [value] is [None], a boolean or a number, which the [for] loop
    cannot go through ([TypeError]). *)
Theorem from_response_raises_iff (q : string) (v : value) (e : exn) :
  from_response q v = Raise e <->
  ((forall d, v <> VDict d) /\ e = AttributeError) \/
  (exists d, v = VDict d /\
             not_a_container (dict_get d "value" (VList [])) /\
             e = TypeError).
Proof.
  split.
  - destruct v; try (cbn; intros [= <-]; left; split; [discriminate|reflexivity]).
    unfold from_response. cbn [get bind]. intros H. right. exists d.
    split; [reflexivity|].
    destruct (dict_get d "value" (VList [])) as [ | | | |s|l|d'] eqn:Ev;
      cbn [iter bind] in H;
      try (injection H as <-; split; [exact I|reflexivity]);
      exfalso; rewrite map_items_spec in H; cbn [bind contains] in H;
      unfold has_key, getitem in H;
      destruct (lookup "nextOffset" d); cbn [bind] in H; discriminate.
  - intros [[N ->] | (d & -> & Hn & ->)].
    + destruct v; try reflexivity. now elim (N d).
    + unfold from_response. cbn [get bind].
      destruct (dict_get d "value" (VList [])); try contradiction; reflexivity.
Qed.

Lemma mapped_length (items : list value) :
  (List.length (flat_map (fun item => match from_dict item with
                                      | Ok image => [image]
                                      | Raise _ => []
                                      end) items) <= List.length items)%nat /\
  (List.length (flat_map (fun item => match from_dict item with
                                      | Ok image => [image]
                                      | Raise _ => []
                                      end) items) = List.length items <->
   forall item, In item items -> exists image, from_dict item = Ok image).
Proof.
  induction items as [|item rest [IHle IHeq]]; cbn [flat_map List.length].
  - split; [lia|]. split; [intros _ item []|reflexivity].
  - rewrite length_app. destruct (from_dict item) as [image|e] eqn:E; cbn [List.length].
    + split; [lia|]. split.
      * intros H item' [<-|Hin]; [now exists image|]. apply IHeq; [lia|exact Hin].
      * intros H.
        assert (Hr : forall item', In item' rest -> exists image', from_dict item' = Ok image')
          by (intros item' Hin; apply H; now right).
        apply IHeq in Hr. lia.
    + split; [lia|]. split; [lia|].
      intros H. destruct (H item (or_introl eq_refl)) as [image Hi]. congruence.
Qed.

(** X5.  A page never yields more images than it has items, and it
    yields as many exactly when [from_dict] maps every item.  A [value]
    that is a dict or a string is gone through key by key or character
    by character, and yields no image at all. *)
Theorem from_response_image_count
    (q : string) (d : list (string * value)) (r : SearchResult) (items : list value) :
  from_response q (VDict d) = Ok r ->
  iter (dict_get d "value" (VList [])) = Ok items ->
  (List.length (images r) <= List.length items)%nat /\
  (List.length (images r) = List.length items <->
   forall item, In item items -> exists image, from_dict item = Ok image) /\
  ((forall l, dict_get d "value" (VList []) <> VList l) -> images r = []).
Proof.
  intros Hr Hit. unfold from_response in Hr. cbn [get bind] in Hr.
  rewrite Hit in Hr. cbn [bind] in Hr. rewrite map_items_spec in Hr.
  cbn [bind app contains] in Hr. unfold has_key, getitem in Hr.
  assert (Hi : images r = flat_map (fun item => match from_dict item with
                                                | Ok image => [image]
                                                | Raise _ => []
                                                end) items).
  { destruct (lookup "nextOffset" d); cbn [bind] in Hr; now injection Hr as <-. }
  rewrite Hi. destruct (mapped_length items) as [Hle Heq].
  split; [exact Hle|]. split; [exact Heq|].
  intros Hnl.
  assert (Hfail : forall item, In item items -> forall d', item <> VDict d').
  { destruct (dict_get d "value" (VList [])) as [ | | | |s|l|d'];
      cbn [iter] in Hit; try discriminate; injection Hit as <-.
    - intros item Hin. apply in_map_iff in Hin. destruct Hin as (c & <- & _). discriminate.
    - now elim (Hnl l).
    - intros item Hin. apply in_map_iff in Hin. destruct Hin as (kv & <- & _). discriminate. }
  clear Hi Hle Heq Hit Hr. induction items as [|item rest IH]; [reflexivity|].
  cbn [flat_map]. rewrite (from_dict_not_dict item) by (apply Hfail; now left).
  apply IH. intros item' Hin. apply Hfail. now right.
Qed.

End WithRuntime.

Lemma from_dict_raises_iff_witness :
  @from_dict runtime (VDict [("datePublished", VInt 5)]) = Raise AttributeError.
Proof.
  apply (proj2 (@from_dict_raises_iff runtime)). right.
  split; [eexists; reflexivity|].
  split; [|reflexivity]. eexists. split; [reflexivity|discriminate].
Defined.

Lemma meets_size_requirements_errors_witness :
  meets_size_requirements (sample_image (VInt 100) (VStr "tall")) 400 400 = Ok false /\
  meets_size_requirements (sample_image (VInt 800) (VStr "tall")) 400 400 = Raise TypeError.
Proof.
  split.
  - apply (proj2 (proj2 (meets_size_requirements_errors
                           (sample_image (VInt 100) (VStr "tall")) 400 400))).
    reflexivity.
  - apply (proj1 (proj2 (meets_size_requirements_errors
                           (sample_image (VInt 800) (VStr "tall")) 400 400))).
    right. split; reflexivity.
Defined.

Lemma from_response_raises_iff_witness :
  @from_response runtime "cats" (VDict [("value", VNone)]) = Raise TypeError.
Proof.
  apply (@from_response_raises_iff runtime). right.
  eexists. split; [reflexivity|]. split; [exact I|reflexivity].
Defined.

Lemma from_response_image_count_witness :
  exists r,
    @from_response runtime "cats" (VDict [("value", VStr "ab")]) = Ok r /\
    images r = [].
Proof.
  assert (H : exists r, @from_response runtime "cats" (VDict [("value", VStr "ab")]) = Ok r)
    by (eexists; reflexivity).
  destruct H as (r & Hr). exists r. split; [exact Hr|].
  apply (proj2 (proj2 (@from_response_image_count runtime "cats"
                         [("value", VStr "ab")] r _ Hr eq_refl))).
  discriminate.
Defined.

(** The separators 28 to 31 are whitespace for [str.isspace] but not
    for [int]: a [contentSize] that starts with one of them makes
    [from_dict] raise. *)
Example from_dict_separator_content_size :
  @from_dict runtime (VDict [("contentSize", VStr (String (ascii_of_nat 28) "5 B"))])
  = Raise ValueError.
Proof.
  apply ModelsSpec.from_dict_bad_content_size with (s := String (ascii_of_nat 28) "5 B");
    reflexivity.
Qed.

End ModelsMore.

(* ================================================================== *)
(** * More on the error classifier                                      *)
(* ================================================================== *)

Module ExceptionsMore.

Import PyFacts Exceptions ExceptionsSpec.

Lemma api_message_inv d m :
  api_message (VDict d) m ->
  exists e, lookup "error" d = Some (VDict e) /\ lookup "message" e = Some (VStr m).
Proof. intros H. inversion H; subst. eauto. Qed.

Lemma no_api_message_inv d :
  no_api_message (VDict d) ->
  lookup "error" d = None \/
  exists error_data,
    lookup "error" d = Some error_data /\ contains "message" error_data = Ok false.
Proof.
  intros H. inversion H as [v N E | d0 He E | d0 error_data He Hc E]; subst.
  - now elim (N d).
  - now left.
  - right. eauto.
Qed.

(** [handle_bing_error] on a dict with an ["error"] *)
Lemma handle_bing_error_with_error status d error_data :
  lookup "error" d = Some error_data ->
  handle_bing_error status (VDict d) =
  let? error_message :=
    (let? has_message := contains "message" error_data in
     if has_message then getitem error_data "message"
     else Ok (VStr "Unknown Bing API error")) in
  if status =? 401 then
    let? m := str_add "Authentication failed: " error_message in
    Ok {| class := BingAuthenticationError; message := m;
          status_code := status; response := VDict d |}
  else if status =? 429 then
    let? m := str_add "Rate limit exceeded: " error_message in
    Ok {| class := BingRateLimitError; message := m;
          status_code := status; response := VDict d |}
  else
    let? m := str_add ("Search error (" ++ str_of_int status ++ "): ")%string
                      error_message in
    Ok {| class := BingSearchError; message := m;
          status_code := status; response := VDict d |}.
Proof.
  intros He. unfold handle_bing_error. cbn [contains bind]. unfold has_key.
  rewrite He. cbn [getitem bind]. rewrite He. reflexivity.
Qed.

(** The three ways [handle_bing_error] can go *)
Lemma handle_bing_error_cases status body :
  (exists m,
      api_message body m /\
      handle_bing_error status body =
      Ok {| class := class_of status;
            message := (prefix_of status ++ m)%string;
            status_code := status;
            response := body |})
  \/
  (no_api_message body /\
   handle_bing_error status body =
   Ok {| class := class_of status;
         message := (prefix_of status ++ "Unknown Bing API error")%string;
         status_code := status;
         response := body |})
  \/
  (handle_bing_error status body = Raise TypeError /\
   (forall m, ~ api_message body m) /\
   ~ no_api_message body).
Proof.
  destruct body as [ | | | | |l|d];
    try (right; left; split;
         [apply no_message_not_dict; discriminate
         |apply handle_bing_error_no_message, no_message_not_dict; discriminate]).
  destruct (lookup "error" d) as [error_data|] eqn:He.
  2:{ right. left. split; [now apply no_message_no_error|].
      now apply handle_bing_error_no_message, no_message_no_error. }
  assert (Hno : forall m, api_message (VDict d) m ->
                          exists e, error_data = VDict e /\
                                    lookup "message" e = Some (VStr m)).
  { intros m H. apply api_message_inv in H. destruct H as (e & He' & Hm).
    rewrite He in He'. injection He' as ->. eauto. }
  assert (Hnn : no_api_message (VDict d) -> contains "message" error_data = Ok false).
  { intros H. apply no_api_message_inv in H.
    destruct H as [H|(ed & He' & Hc)]; [congruence|].
    rewrite He in He'. now injection He' as ->. }
  destruct (contains "message" error_data) as [[|]|e] eqn:Hc.
  - (* ['message' in error_data] holds *)
    destruct (getitem error_data "message") as [mv|e] eqn:Hg.
    + destruct error_data as [ | | | |s|l|e]; try discriminate.
      cbn [getitem] in Hg. destruct (lookup "message" e) as [mv'|] eqn:Hm; [|discriminate].
      injection Hg as ->.
      destruct (str_add "x" mv) as [x|ex] eqn:Ea.
      * (* the message is a string *)
        destruct mv; try discriminate. left. exists s.
        assert (Ha : api_message (VDict d) s) by (econstructor; eassumption).
        split; [exact Ha|]. now apply handle_bing_error_api_message.
      * (* it is not *)
        right. right. split; [|split].
        -- rewrite (handle_bing_error_with_error status d _ He).
           cbn [contains bind getitem]. unfold has_key. rewrite Hm. cbn [bind].
           destruct mv; try discriminate;
             destruct (status =? 401), (status =? 429); reflexivity.
        -- intros m H. destruct (Hno m H) as (e' & [= <-] & Hm').
           rewrite Hm in Hm'. injection Hm' as ->. discriminate.
        -- intros H. apply Hnn in H. congruence.
    + (* [error_data['message']] raises *)
      right. right.
      assert (e = TypeError).
      { destruct error_data; cbn in Hg; try congruence.
        cbn in Hc. unfold has_key in Hc.
        destruct (lookup "message" d0); congruence. }
      subst e. split; [|split].
      * rewrite (handle_bing_error_with_error status d _ He). rewrite Hc. cbn [bind].
        rewrite Hg. reflexivity.
      * intros m H. destruct (Hno m H) as (e' & -> & Hm').
        cbn in Hg. rewrite Hm' in Hg. discriminate.
      * intros H. apply Hnn in H. congruence.
  - right. left.
    assert (Hn : no_api_message (VDict d)) by (eapply no_message_in_error; eassumption).
    split; [exact Hn|]. now apply handle_bing_error_no_message.
  - (* ['message' in error_data] raises *)
    right. right.
    assert (He' : e = TypeError) by (destruct error_data; cbn in Hc; congruence).
    subst e. split; [|split].
    + rewrite (handle_bing_error_with_error status d _ He). now rewrite Hc.
    + intros m H. destruct (Hno m H) as (e' & -> & _). discriminate.
    + intros H. apply Hnn in H. congruence.
Qed.

(** X6.  [handle_bing_error] raises nothing but [TypeError]; and
    whatever the body, the error it returns has the class that goes with
    the status code, a message that starts with the prefix of that
    class, the status code and the body it was given. *)
Theorem handle_bing_error_outcomes (status : Z) (body : value) :
  (forall e, handle_bing_error status body = Raise e -> e = TypeError) /\
  (forall err,
      handle_bing_error status body = Ok err ->
      class err = class_of status /\
      status_code err = status /\
      response err = body /\
      exists m, message err = (prefix_of status ++ m)%string).
Proof.
  destruct (handle_bing_error_cases status body)
    as [(m & _ & ->) | [(_ & ->) | (-> & _)]].
  - split; [discriminate|]. intros err [= <-]. cbn. repeat split. now exists m.
  - split; [discriminate|]. intros err [= <-]. cbn. repeat split. eexists. reflexivity.
  - split; [now intros e [= <-]|discriminate].
Qed.

(** X7.  [handle_bing_error] returns an error exactly for the bodies
    that carry a message string and for those that carry no message; on
    every other body (an ["error"] that is [None], a boolean or a
    number, an ["error"] that is a string or a list with ["message"] in
    it, a ["message"] that is not a string) it raises [TypeError]. *)
Theorem handle_bing_error_returns_iff (status : Z) (body : value) :
  ((exists err, handle_bing_error status body = Ok err) <->
   (exists m, api_message body m) \/ no_api_message body) /\
  (handle_bing_error status body = Raise TypeError <->
   (forall m, ~ api_message body m) /\ ~ no_api_message body).
Proof.
  destruct (handle_bing_error_cases status body)
    as [(m & Ha & E) | [(Hn & E) | (E & Hna & Hnn)]]; rewrite E.
  - split; split.
    + intros _. left. now exists m.
    + intros _. eexists. reflexivity.
    + discriminate.
    + intros [H _]. now elim (H m).
  - split; split.
    + intros _. now right.
    + intros _. eexists. reflexivity.
    + discriminate.
    + intros [_ H]. now elim H.
  - split; split.
    + intros [err H]. discriminate.
    + intros [[m H]|H]; [now elim (Hna m)|now elim Hnn].
    + intros _. now split.
    + reflexivity.
Qed.

Lemma handle_bing_error_outcomes_witness :
  exists err,
    handle_bing_error 503 (VDict [("error", VStr "overloaded")]) = Ok err /\
    class err = BingSearchError /\ status_code err = 503.
Proof.
  assert (H : exists err,
             handle_bing_error 503 (VDict [("error", VStr "overloaded")]) = Ok err)
    by (eexists; reflexivity).
  destruct H as (err & He). exists err. split; [exact He|].
  destruct (proj2 (handle_bing_error_outcomes 503 _) err He) as (Hc & Hs & _).
  split; [rewrite Hc; reflexivity|exact Hs].
Defined.

Lemma handle_bing_error_returns_iff_witness :
  handle_bing_error 500 (VDict [("error", VDict [("message", VInt 5)])]) = Raise TypeError.
Proof.
  apply (proj2 (handle_bing_error_returns_iff 500 _)). split.
  - intros m H. apply api_message_inv in H. destruct H as (e & [= <-] & Hm).
    discriminate.
  - intros H. apply no_api_message_inv in H.
    destruct H as [H|(ed & [= <-] & Hc)]; discriminate.
Defined.

End ExceptionsMore.

(* ================================================================== *)
(** * The construction of the client and the configuration              *)
(* ================================================================== *)

Module ClientInitSpec.

Import Config ClientInit MoreFixtures.

Lemma falsy_str_false (o : option string) :
  falsy_str o = false -> exists s, o = Some s /\ s <> "".
Proof.
  destruct o as [s|]; [|discriminate]. cbn.
  destruct (String.eqb_spec s ""); [discriminate|]. intros _. now exists s.
Qed.

Lemma or_else_given (s : string) (b : option string) :
  s <> "" -> or_else (Some s) b = Some s.
Proof. intros N. cbn. now destruct (String.eqb_spec s ""). Qed.

(** X8.  [BingImageSearchClient.__init__] raises nothing but
    [ValueError]; the client it builds has a key and an endpoint that are
    not empty, each of them the argument when that is a non-empty string
    and the value of the configuration otherwise, and a
    [last_request_time] of 0.  An argument that is the empty string
    counts as left out, and with a key and an endpoint that are not
    empty the client is built whatever the configuration holds. *)
Theorem init_outcome (cfg : config) (key url : option string)
    (delay : option float) (retries : option Z) :
  (forall e, init cfg key url delay retries = Raise e -> e = ValueError) /\
  (forall c,
      init cfg key url delay retries = Ok c ->
      api_key c <> "" /\ endpoint c <> "" /\
      or_else key (BING_SEARCH_API_KEY cfg) = Some (api_key c) /\
      or_else url (Some (BING_SEARCH_ENDPOINT cfg)) = Some (endpoint c) /\
      request_delay c = match delay with Some d => d | None => DEFAULT_REQUEST_DELAY cfg end /\
      max_retries c = match retries with Some n => n | None => MAX_RETRY_ATTEMPTS cfg end /\
      last_request_time c = 0%float) /\
  init cfg (match key with Some "" => None | _ => key end)
           (match url with Some "" => None | _ => url end) delay retries
  = init cfg key url delay retries /\
  (forall k u,
      key = Some k -> url = Some u -> k <> "" -> u <> "" ->
      exists c, init cfg key url delay retries = Ok c /\ api_key c = k /\ endpoint c = u).
Proof.
  split; [|split; [|split]].
  - intros e. unfold init.
    destruct (falsy_str (or_else key _)); [now intros [= <-]|].
    destruct (falsy_str (or_else url _)); [now intros [= <-]|].
    destruct (or_else key _); [|now intros [= <-]].
    destruct (or_else url _); [discriminate|now intros [= <-]].
  - intros c. unfold init.
    destruct (falsy_str (or_else key _)) eqn:Ek; [discriminate|].
    destruct (falsy_str (or_else url _)) eqn:Eu; [discriminate|].
    apply falsy_str_false in Ek. destruct Ek as (k & -> & Nk).
    apply falsy_str_false in Eu. destruct Eu as (u & -> & Nu).
    intros [= <-]. cbn. repeat split; assumption.
  - destruct key as [k|], url as [u|]; try reflexivity.
    + destruct (String.eqb_spec k "") as [->|Nk], (String.eqb_spec u "") as [->|Nu];
        try reflexivity.
      * destruct u as [|a u]; [contradiction|reflexivity].
      * destruct k as [|a k]; [contradiction|].
        reflexivity.
      * destruct k as [|a k]; [contradiction|].
        destruct u as [|b u]; [contradiction|reflexivity].
    + destruct k as [|a k]; reflexivity.
    + destruct u as [|a u]; reflexivity.
  - intros k u -> -> Nk Nu. unfold init.
    rewrite !(or_else_given k) by assumption. rewrite !(or_else_given u) by assumption.
    cbn [falsy_str].
    destruct (String.eqb_spec k ""); [contradiction|].
    destruct (String.eqb_spec u ""); [contradiction|].
    eexists. split; [reflexivity|]. split; reflexivity.
Qed.

(** X9.  [validate_config] and the client do not agree on the key: a
    client built from the configuration alone exists only if
    [validate_config] holds, but [validate_config] holds also for a key
    that is the empty string, with which [__init__] raises [ValueError];
    for any other key the two agree. *)
Theorem validate_config_and_init (cfg : config) :
  (forall c, init cfg None None None None = Ok c -> validate_config cfg = true) /\
  (validate_config cfg = true ->
   BING_SEARCH_API_KEY cfg = Some "" ->
   init cfg None None None None = Raise ValueError) /\
  (validate_config cfg = true ->
   BING_SEARCH_API_KEY cfg <> Some "" ->
   exists c, init cfg None None None None = Ok c).
Proof.
  unfold init, validate_config. cbn [or_else falsy_str].
  destruct (BING_SEARCH_API_KEY cfg) as [k|]; [|repeat split; discriminate].
  destruct (String.eqb_spec k "") as [->|Nk];
    destruct (String.eqb_spec (BING_SEARCH_ENDPOINT cfg) "") as [Eu|Nu];
    cbn;
    repeat match goal with
           | |- context [String.eqb ?a ?b] => destruct (String.eqb_spec a b); try contradiction
           end;
    repeat split; try discriminate; try (intros; congruence);
    intros; eexists; reflexivity.
Qed.

Lemma init_outcome_witness :
  exists c,
    init empty_key_config (Some "secret") (Some "https://example.org/search")
      (Some 0%float) (Some 5) = Ok c /\
    api_key c = "secret" /\ endpoint c = "https://example.org/search".
Proof.
  apply (proj2 (proj2 (proj2 (init_outcome empty_key_config (Some "secret")
           (Some "https://example.org/search") (Some 0%float) (Some 5))))
           "secret" "https://example.org/search"
           eq_refl eq_refl ltac:(discriminate) ltac:(discriminate)).
Defined.

Lemma validate_config_and_init_witness :
  validate_config empty_key_config = true /\
  init empty_key_config None None None None = Raise ValueError.
Proof.
  split; [reflexivity|].
  apply (proj1 (proj2 (validate_config_and_init empty_key_config))); reflexivity.
Defined.

End ClientInitSpec.

(* ================================================================== *)
(** * More on the retry loop and the rate limit                         *)
(* ================================================================== *)

Module RetryFacts.

Import PyFacts BingClientFacts Observe MoreFixtures.

Section WithEnv.
Context {RT : Runtime} {E : Env}.

Lemma request_count_app (a b : list event) :
  request_count (a ++ b) = (request_count a + request_count b)%nat.
Proof. unfold request_count. now rewrite filter_app, length_app. Qed.

Lemma sleep_count_app (a b : list event) :
  sleep_count (a ++ b) = (sleep_count a + sleep_count b)%nat.
Proof. unfold sleep_count. now rewrite filter_app, length_app. Qed.

Lemma total_backoff_app (a b : list event) :
  total_backoff (a ++ b) = total_backoff a + total_backoff b.
Proof.
  induction a as [|ev a IH]; [reflexivity|].
  change (total_backoff ((ev :: a) ++ b))
    with (match ev with EvSleep (VInt s) => s + total_backoff (a ++ b)
                   | _ => total_backoff (a ++ b) end).
  change (total_backoff (ev :: a))
    with (match ev with EvSleep (VInt s) => s + total_backoff a
                   | _ => total_backoff a end).
  rewrite IH. destruct ev as [| |[]]; lia.
Qed.

(** The schedule of a retry loop, counted *)
Lemma backoff_trace_counts req :
  forall answers k,
    request_count (backoff_trace req k answers) = List.length answers /\
    sleep_count (backoff_trace req k answers) = Nat.pred (List.length answers) /\
    (1 <= k ->
     total_backoff (backoff_trace req k answers)
     = 2 ^ (k - 1) * (2 ^ Z.of_nat (Nat.pred (List.length answers)) - 1)) /\
    (forall t, ~ In (EvTime t) (backoff_trace req k answers)).
Proof.
  induction answers as [|a rest IH]; intros k.
  - split; [|split; [|split]]; try reflexivity.
    + intros _. cbn. lia.
    + intros t [].
  - destruct rest as [|b rest'].
    + split; [|split; [|split]]; try reflexivity.
      * intros _. cbn. lia.
      * intros t [H|[]]. discriminate.
    + destruct (IH (k + 1)) as (Hr & Hs & Ht & Hn).
      change (backoff_trace req k (a :: b :: rest'))
        with (EvGet req a :: EvSleep (VInt (2 ^ (k - 1)))
                :: backoff_trace req (k + 1) (b :: rest')).
      set (tl := backoff_trace req (k + 1) (b :: rest')) in *.
      split; [|split; [|split]].
      * change (request_count (EvGet req a :: EvSleep (VInt (2 ^ (k - 1))) :: tl))
          with (S (request_count tl)). rewrite Hr. reflexivity.
      * change (sleep_count (EvGet req a :: EvSleep (VInt (2 ^ (k - 1))) :: tl))
          with (S (sleep_count tl)). rewrite Hs. reflexivity.
      * intros Hk.
        change (total_backoff (EvGet req a :: EvSleep (VInt (2 ^ (k - 1))) :: tl))
          with (2 ^ (k - 1) + total_backoff tl).
        rewrite Ht by lia.
        change (Nat.pred (List.length (a :: b :: rest')))
          with (S (Nat.pred (List.length (b :: rest')))).
        rewrite Nat2Z.inj_succ, Z.pow_succ_r by lia.
        replace (k + 1 - 1) with (Z.succ (k - 1)) by lia.
        rewrite Z.pow_succ_r by lia. ring.
      * intros t [H|[H|H]]; try discriminate. now apply (Hn t).
Qed.

(** [_make_request_with_retries], with what it leaves of the client *)
Lemma make_request_with_retries_full (params headers : list (string * value))
    (st : state) :
  exists answers res st',
    _make_request_with_retries params headers st = (res, st') /\
    Z.of_nat (List.length answers) <= Z.max 0 (max_retries (self st)) /\
    trace st' = trace st ++
                backoff_trace {| url := endpoint (self st); params := params;
                                 headers := headers; timeout := 30 |} 1 answers /\
    self st' = self st /\
    res = last answers (Raise (RequestException "All retry attempts failed")).
Proof.
  unfold _make_request_with_retries, mbind, get_self.
  rewrite range_from_1_seq.
  destruct (retry_loop_spec
              {| url := endpoint (self st); params := params;
                 headers := headers; timeout := 30 |}
              (max_retries (self st)) (Z.to_nat (max_retries (self st)))
              1%nat None st)
    as (answers & res & st' & Hrun & Hlen & _ & Htr & Hself & _ & _ & Hres).
  { destruct (Z.to_nat (max_retries (self st))) eqn:En; [now right|left; lia]. }
  exists answers, res, st'. repeat split; try assumption. lia.
Qed.

(** [_enforce_rate_limit]: what it does to the trace and to the client *)
Lemma enforce_rate_limit_effect (st : state) :
  exists evs st',
    _enforce_rate_limit st = (Ok tt, st') /\
    trace st' = trace st ++ evs /\
    request_count evs = 0%nat /\
    (sleep_count evs <= 1)%nat /\
    total_backoff evs = 0 /\
    last_time evs = Some (last_request_time (self st')) /\
    self st' = set_last_request_time (self st) (last_request_time (self st')) /\
    (sleep_count evs = 1%nat <->
     PrimFloat.ltb
       (PrimFloat.sub (fst (time_time (world st))) (last_request_time (self st)))
       (request_delay (self st)) = true).
Proof.
  unfold _enforce_rate_limit, mbind, time, get_self, sleep, store_last_request_time, ret.
  destruct (time_time (world st)) as [t1 w1]. cbn [self world trace fst].
  destruct (PrimFloat.ltb _ _); cbn [self world trace].
  - destruct (time_time (time_sleep _ w1)) as [t2 w2]. cbn [self world trace].
    eexists. eexists. split; [reflexivity|]. cbn [trace self]. split.
    { rewrite <- !app_assoc. reflexivity. }
    cbn. repeat split; try reflexivity; try lia.
  - destruct (time_time w1) as [t2 w2]. cbn [self world trace].
    eexists. eexists. split; [reflexivity|]. cbn [trace self]. split.
    { rewrite <- !app_assoc. reflexivity. }
    cbn. repeat split; try reflexivity; try lia; try discriminate.
Qed.

(** The run of [_enforce_rate_limit], call by call: the clock, the sleep
    when the delay has not passed, the clock again, and the second
    reading kept. *)
Lemma enforce_rate_limit_exact (st : state) :
  let t1 := fst (time_time (world st)) in
  let w1 := snd (time_time (world st)) in
  let elapsed := PrimFloat.sub t1 (last_request_time (self st)) in
  let wait_time := PrimFloat.sub (request_delay (self st)) elapsed in
  let waits := PrimFloat.ltb elapsed (request_delay (self st)) in
  let w2 := if waits then time_sleep (VFloat wait_time) w1 else w1 in
  _enforce_rate_limit st =
  (Ok tt,
   {| world := snd (time_time w2);
      trace := trace st ++
               EvTime t1 :: (if waits then [EvSleep (VFloat wait_time)] else [])
                 ++ [EvTime (fst (time_time w2))];
      self := set_last_request_time (self st) (fst (time_time w2)) |}).
Proof.
  unfold _enforce_rate_limit, mbind, time, get_self, sleep, store_last_request_time, ret.
  destruct (time_time (world st)) as [t1 w1]. cbn [self world trace fst snd].
  destruct (PrimFloat.ltb _ _); cbn [self world trace].
  - destruct (time_time (time_sleep _ w1)) as [t2 w2]. cbn [self world trace fst snd].
    rewrite <- !app_assoc. reflexivity.
  - destruct (time_time w1) as [t2 w2]. cbn [self world trace fst snd].
    rewrite <- !app_assoc. reflexivity.
Qed.

(** One call of [search]: the rate limit, then the retry loop on one
    request, then [from_response] on the body *)
Lemma search_run query count offset market safe_search image_type filter kwargs
    (st : state) :
  exists ps evs1 st1 answers res st2,
    ps = dict_update
           (let params := [("q", VStr query);
                           ("count", VInt (Z.min count 150));
                           ("offset", offset);
                           ("mkt", market);
                           ("safeSearch", safe_search)] in
            let params := if truthy image_type
                          then dict_set "imageType" image_type params
                          else params in
            if truthy filter then dict_set "$filter" filter params else params)
           kwargs /\
    _enforce_rate_limit st = (Ok tt, st1) /\
    trace st1 = trace st ++ evs1 /\
    request_count evs1 = 0%nat /\
    (sleep_count evs1 <= 1)%nat /\
    total_backoff evs1 = 0 /\
    last_time evs1 = Some (last_request_time (self st1)) /\
    self st1 = set_last_request_time (self st) (last_request_time (self st1)) /\
    Z.of_nat (List.length answers) <= Z.max 0 (max_retries (self st)) /\
    trace st2 = trace st1 ++
                backoff_trace
                  {| url := endpoint (self st);
                     params := ps;
                     headers := [("Ocp-Apim-Subscription-Key", VStr (api_key (self st)));
                                 ("Accept", VStr "application/json")];
                     timeout := 30 |} 1 answers /\
    self st2 = self st1 /\
    res = last answers (Raise (RequestException "All retry attempts failed")) /\
    search query count offset market safe_search image_type filter kwargs st
    = ((let? body := res in from_response query body), st2).
Proof.
  unfold search. unfold mbind at 1.
  destruct (enforce_rate_limit_effect st)
    as (evs1 & st1 & -> & Htr1 & Hreq & Hsl & Hbo & Hlast & Hself & _).
  cbv zeta. unfold mbind at 1, get_self at 1. unfold mbind at 1.
  set (ps := dict_update _ kwargs).
  destruct (make_request_with_retries_full ps
              [("Ocp-Apim-Subscription-Key", VStr (api_key (self st1)));
               ("Accept", VStr "application/json")] st1)
    as (answers & res & st2 & -> & Hlen & Htr2 & Hself2 & Hres).
  assert (Hk : api_key (self st1) = api_key (self st)) by (rewrite Hself; reflexivity).
  assert (He : endpoint (self st1) = endpoint (self st)) by (rewrite Hself; reflexivity).
  assert (Hm : max_retries (self st1) = max_retries (self st))
    by (rewrite Hself; reflexivity).
  rewrite Hk, He in Htr2. rewrite Hm in Hlen.
  exists ps, evs1, st1, answers, res, st2.
  split; [reflexivity|]. split; [reflexivity|]. split; [exact Htr1|].
  split; [exact Hreq|]. split; [exact Hsl|]. split; [exact Hbo|]. split; [exact Hlast|].
  split; [exact Hself|]. split; [exact Hlen|]. split; [exact Htr2|].
  split; [exact Hself2|]. split; [exact Hres|].
  destruct res; reflexivity.
Qed.

End WithEnv.

End RetryFacts.

Module RetrySpec.

Import PyFacts BingClientFacts Observe MoreFixtures RetryFacts.

(** X10.  A client whose [max_retries] is 0 or less sends nothing:
    [_make_request_with_retries] raises the [RequestException] ["All
    retry attempts failed"] in the state it was called in, and so does
    [search], after the rate limit, without a request. *)
Theorem no_attempt_without_retries (RT : Runtime) (E : Env) (st : state) :
  max_retries (self st) <= 0 ->
  (forall params headers,
      _make_request_with_retries params headers st
      = (Raise (RequestException "All retry attempts failed"), st)) /\
  (forall query count offset market safe_search image_type filter kwargs,
      let run := search query count offset market safe_search image_type filter kwargs st in
      fst run = Raise (RequestException "All retry attempts failed") /\
      request_count (trace (snd run)) = request_count (trace st)).
Proof.
  intros Hmax.
  assert (Hnone : forall (s : state) params headers,
             max_retries (self s) <= 0 ->
             _make_request_with_retries params headers s
             = (Raise (RequestException "All retry attempts failed"), s)).
  { intros s params headers Hs. unfold _make_request_with_retries, mbind, get_self.
    unfold range_from_1. replace (Z.to_nat (max_retries (self s))) with O by lia.
    reflexivity. }
  split; [intros; now apply Hnone|].
  intros query count offset market safe_search image_type filter kwargs run.
  destruct (search_run query count offset market safe_search image_type filter kwargs st)
    as (ps & evs1 & st1 & answers & res & st2 & _ & _ & Htr1 & Hreq & _ & _ & _ & _
        & Hlen & Htr2 & _ & Hres & Hrun).
  subst run. rewrite Hrun. cbn [fst snd].
  assert (answers = []) by (destruct answers; [reflexivity|cbn in Hlen; lia]).
  subst answers res. split; [reflexivity|].
  rewrite Htr2, Htr1. cbn [backoff_trace]. rewrite app_nil_r, request_count_app, Hreq. lia.
Qed.

(** X11.  Only a [RequestException] is retried: when the first request
    ends with another exception, [_make_request_with_retries] raises it
    at once, after that one request and without a sleep. *)
Theorem other_exception_not_retried (E : Env) (params headers : list (string * value))
    (st : state) (e : exn) (w : World) :
  1 <= max_retries (self st) ->
  http_get {| url := endpoint (self st); params := params;
              headers := headers; timeout := 30 |} (world st) = (Raise e, w) ->
  is_RequestException e = false ->
  _make_request_with_retries params headers st
  = (Raise e,
     {| world := w;
        trace := trace st ++ [EvGet {| url := endpoint (self st); params := params;
                                       headers := headers; timeout := 30 |} (Raise e)];
        self := self st |}).
Proof.
  intros Hmax Hget He. unfold _make_request_with_retries, mbind, get_self.
  rewrite range_from_1_seq.
  destruct (Z.to_nat (max_retries (self st))) as [|n] eqn:En; [lia|].
  cbn [seq map retry_loop].
  rewrite (requests_get_run _ st _ _ Hget), He. reflexivity.
Qed.

(** X12.  The cost of [_make_request_with_retries]: it makes at most
    [max_retries] requests, it sleeps once between two requests and
    never after the last, the [k] requests it makes cost [2 ^ (k - 1) -
    1] seconds of backoff, at most [2 ^ (max_retries - 1) - 1] then, and
    it does not read the clock. *)
Theorem backoff_is_bounded (E : Env) (params headers : list (string * value))
    (st : state) :
  exists evs,
    trace (snd (_make_request_with_retries params headers st)) = trace st ++ evs /\
    Z.of_nat (request_count evs) <= Z.max 0 (max_retries (self st)) /\
    sleep_count evs = Nat.pred (request_count evs) /\
    total_backoff evs = 2 ^ Z.of_nat (Nat.pred (request_count evs)) - 1 /\
    total_backoff evs <= 2 ^ (Z.max 1 (max_retries (self st)) - 1) - 1 /\
    (forall t, ~ In (EvTime t) evs).
Proof.
  destruct (make_request_with_retries_full params headers st)
    as (answers & res & st' & -> & Hlen & Htr & _).
  set (req := {| url := endpoint (self st); params := params;
                 headers := headers; timeout := 30 |}) in *.
  destruct (backoff_trace_counts req answers 1) as (Hr & Hs & Ht & Hn).
  specialize (Ht ltac:(lia)). change (2 ^ (1 - 1)) with 1 in Ht. rewrite Z.mul_1_l in Ht.
  exists (backoff_trace req 1 answers). cbn [snd].
  split; [exact Htr|]. rewrite Hr. split; [exact Hlen|]. split; [exact Hs|].
  split; [exact Ht|]. split; [|exact Hn].
  rewrite Ht. apply Z.sub_le_mono_r. apply Z.pow_le_mono_r; lia.
Qed.

(** X13.  [_enforce_rate_limit] never raises and sends nothing.  Its
    calls are a reading of the clock, then a sleep exactly when less
    than [request_delay] seconds lie between [last_request_time] and
    that reading (a sleep of the seconds that are missing, and no other
    sleep), then a second reading of the clock, taken in the world the
    sleep left; this second reading is what it stores in
    [last_request_time].  The other attributes of the client stay as
    they were. *)
Theorem enforce_rate_limit_stamps (E : Env) (st : state) :
  exists evs st',
    _enforce_rate_limit st = (Ok tt, st') /\
    trace st' = trace st ++ evs /\
    request_count evs = 0%nat /\
    (sleep_count evs <= 1)%nat /\
    (sleep_count evs = 1%nat <->
     PrimFloat.ltb
       (PrimFloat.sub (fst (time_time (world st))) (last_request_time (self st)))
       (request_delay (self st)) = true) /\
    last_time evs = Some (last_request_time (self st')) /\
    api_key (self st') = api_key (self st) /\
    endpoint (self st') = endpoint (self st) /\
    request_delay (self st') = request_delay (self st) /\
    max_retries (self st') = max_retries (self st) /\
    (exists t1 w1 slept w2,
        time_time (world st) = (t1, w1) /\
        evs = EvTime t1 :: slept ++ [EvTime (last_request_time (self st'))] /\
        (if PrimFloat.ltb (PrimFloat.sub t1 (last_request_time (self st)))
              (request_delay (self st))
         then
           let wait_time :=
             PrimFloat.sub (request_delay (self st))
               (PrimFloat.sub t1 (last_request_time (self st))) in
           slept = [EvSleep (VFloat wait_time)] /\
           w2 = time_sleep (VFloat wait_time) w1
         else slept = [] /\ w2 = w1) /\
        time_time w2 = (last_request_time (self st'), world st')).
Proof.
  destruct (enforce_rate_limit_effect st)
    as (evs & st' & Hrun & Htr & Hreq & Hsl & _ & Hlast & Hself & Hiff).
  exists evs, st'.
  split; [exact Hrun|]. split; [exact Htr|]. split; [exact Hreq|]. split; [exact Hsl|].
  split; [exact Hiff|]. split; [exact Hlast|].
  split; [rewrite Hself; reflexivity|]. split; [rewrite Hself; reflexivity|].
  split; [rewrite Hself; reflexivity|]. split; [rewrite Hself; reflexivity|].
  pose proof (enforce_rate_limit_exact st) as Hex. cbv zeta in Hex.
  rewrite Hrun in Hex. injection Hex as Hst. subst st'. cbn [trace self world] in *.
  apply app_inv_head in Htr. subst evs.
  destruct (time_time (world st)) as [t1 w1] eqn:Et. cbn [fst snd] in *.
  exists t1, w1.
  destruct (PrimFloat.ltb (PrimFloat.sub t1 (last_request_time (self st)))
              (request_delay (self st))).
  - eexists. eexists. split; [reflexivity|]. split; [reflexivity|].
    split; [split; reflexivity|].
    cbn [last_request_time set_last_request_time self world].
    apply surjective_pairing.
  - eexists. eexists. split; [reflexivity|]. split; [reflexivity|].
    split; [split; reflexivity|].
    cbn [last_request_time set_last_request_time self world].
    apply surjective_pairing.
Qed.

Lemma no_attempt_without_retries_witness :
  @_make_request_with_retries (fake_env pages_of_50) [] []
    (start_with pages_of_50 no_retry_client)
  = (Raise (RequestException "All retry attempts failed"),
     start_with pages_of_50 no_retry_client).
Proof.
  apply (proj1 (no_attempt_without_retries runtime (fake_env pages_of_50)
                  (start_with pages_of_50 no_retry_client) ltac:(cbn; lia))).
Defined.

Lemma other_exception_not_retried_witness :
  fst (@_make_request_with_retries (fake_env crashes) [] [] (fake_start crashes))
  = Raise TypeError /\
  request_count
    (trace (snd (@_make_request_with_retries (fake_env crashes) [] []
                   (fake_start crashes)))) = 1%nat.
Proof.
  rewrite (other_exception_not_retried (fake_env crashes) [] [] (fake_start crashes)
             TypeError {| clock := 1000%float; calls := 1 |}
             ltac:(cbn; lia) eq_refl eq_refl).
  split; reflexivity.
Defined.

Lemma backoff_is_bounded_witness :
  total_backoff
    (trace (snd (@_make_request_with_retries (fake_env always_fails) [] []
                   (fake_start always_fails)))) <= 3.
Proof.
  destruct (backoff_is_bounded (fake_env always_fails) [] [] (fake_start always_fails))
    as (evs & Htr & _ & _ & _ & Hb & _).
  rewrite Htr. exact Hb.
Defined.

Lemma enforce_rate_limit_stamps_witness :
  exists st',
    @_enforce_rate_limit (fake_env pages_of_50) (start_with pages_of_50 waiting_client)
    = (Ok tt, st') /\
    sleeps (trace st') = [VFloat 0.5%float] /\
    last_request_time (self st') = 1000.5%float /\
    max_retries (self st') = 3.
Proof.
  destruct (enforce_rate_limit_stamps (fake_env pages_of_50)
              (start_with pages_of_50 waiting_client))
    as (evs & st' & Hrun & _ & _ & _ & _ & _ & _ & _ & _ & Hm & _).
  exists st'. split; [exact Hrun|].
  apply (f_equal snd) in Hrun. cbn [snd] in Hrun. subst st'.
  split; [vm_compute; reflexivity|]. split; [vm_compute; reflexivity|exact Hm].
Defined.

End RetrySpec.

(* ================================================================== *)
(** * More on [search] and [search_all]                                 *)
(* ================================================================== *)

Module SearchFacts.

Import PyFacts BingClientFacts PaginationFacts Observe MoreFixtures RetryFacts.

(** ** The parameters of a request *)

Lemma lookup_dict_set_same k v d : lookup k (dict_set k v d) = Some v.
Proof.
  induction d as [|[k0 v0] d IH]; cbn [dict_set lookup].
  - now rewrite String.eqb_refl.
  - destruct (String.eqb_spec k k0) as [->|N]; cbn [lookup].
    + now rewrite String.eqb_refl.
    + destruct (String.eqb_spec k k0); [contradiction|exact IH].
Qed.

Lemma lookup_app k a b :
  lookup k (a ++ b) = match lookup k a with Some v => Some v | None => lookup k b end.
Proof.
  induction a as [|[k0 v0] a IH]; cbn [app lookup]; [reflexivity|].
  now destruct (String.eqb k k0).
Qed.

Lemma lookup_none_iff k d : lookup k d = None <-> ~ In k (map fst d).
Proof.
  induction d as [|[k0 v0] d IH]; cbn [lookup map fst In].
  - split; [intros _ []|reflexivity].
  - destruct (String.eqb_spec k k0) as [->|N].
    + split; [discriminate|]. intros H. elim H. now left.
    + rewrite IH. split.
      * intros H [E|H']; [now elim N|now elim H].
      * intros H H'. apply H. now right.
Qed.

Lemma lookup_rev_none k d : lookup k d = None -> lookup k (rev d) = None.
Proof.
  rewrite !lookup_none_iff, map_rev. intros H H'. apply H. now apply in_rev.
Qed.

(** [d.update(extra)]: the last binding of a key in [extra] wins, and a
    key [extra] does not have keeps its value. *)
Lemma lookup_dict_update k extra :
  forall d,
    lookup k (dict_update d extra)
    = match lookup k (rev extra) with Some v => Some v | None => lookup k d end.
Proof.
  unfold dict_update.
  induction extra as [|[k0 v0] extra IH]; intros d; cbn [fold_left fst snd rev].
  - reflexivity.
  - rewrite IH, lookup_app. destruct (lookup k (rev extra)); [reflexivity|].
    cbn [lookup]. destruct (String.eqb_spec k k0) as [->|N].
    + apply lookup_dict_set_same.
    + now apply lookup_dict_set_other.
Qed.

(** The dict [search] sends, key by key *)
Lemma search_params_lookup query count offset market safe_search image_type filter
    kwargs k :
  lookup k
    (dict_update
       (let params := [("q", VStr query);
                       ("count", VInt (Z.min count 150));
                       ("offset", offset);
                       ("mkt", market);
                       ("safeSearch", safe_search)] in
        let params := if truthy image_type
                      then dict_set "imageType" image_type params
                      else params in
        if truthy filter then dict_set "$filter" filter params else params)
       kwargs)
  = match lookup k (rev kwargs) with
    | Some v => Some v
    | None =>
        if String.eqb k "q" then Some (VStr query)
        else if String.eqb k "count" then Some (VInt (Z.min count 150))
        else if String.eqb k "offset" then Some offset
        else if String.eqb k "mkt" then Some market
        else if String.eqb k "safeSearch" then Some safe_search
        else if String.eqb k "imageType"
             then (if truthy image_type then Some image_type else None)
        else if String.eqb k "$filter"
             then (if truthy filter then Some filter else None)
        else None
    end.
Proof.
  rewrite lookup_dict_update. destruct (lookup k (rev kwargs)); [reflexivity|].
  cbv zeta.
  destruct (truthy image_type), (truthy filter); cbn [dict_set String.eqb Ascii.eqb Bool.eqb];
    cbn [lookup];
    repeat (match goal with
            | |- context [String.eqb k ?s] => destruct (String.eqb_spec k s) as [->|?]
            end; try reflexivity).
Qed.

Section WithEnv.
Context {RT : Runtime} {E : Env}.

(** ** The cost of a call *)

Lemma call_search_cost query count offset kwargs (st : state) :
  exists evs,
    trace (snd (call_search query count offset kwargs st)) = trace st ++ evs /\
    Z.of_nat (request_count evs) <= Z.max 0 (max_retries (self st)) /\
    max_retries (self (snd (call_search query count offset kwargs st)))
    = max_retries (self st).
Proof.
  unfold call_search. destruct (existsb _ _).
  - exists []. cbn. rewrite app_nil_r. repeat split; lia.
  - destruct (search_run query count offset
                (dict_get kwargs "market" (VStr "en-US"))
                (dict_get kwargs "safe_search" (VStr "Moderate"))
                (dict_get kwargs "image_type" VNone)
                (dict_get kwargs "filter" VNone)
                (rest_kwargs kwargs) st)
      as (ps & evs1 & st1 & answers & res & st2 & _ & _ & Htr1 & Hreq & _ & _ & _ & Hself
          & Hlen & Htr2 & Hself2 & _ & ->).
    cbn [snd]. eexists. split; [rewrite Htr2, Htr1, <- app_assoc; reflexivity|].
    rewrite request_count_app, Hreq.
    destruct (backoff_trace_counts
                {| url := endpoint (self st); params := ps;
                   headers := [("Ocp-Apim-Subscription-Key", VStr (api_key (self st)));
                               ("Accept", VStr "application/json")];
                   timeout := 30 |} answers 1) as (-> & _).
    split; [cbn [Nat.add]; exact Hlen|].
    rewrite Hself2, Hself. reflexivity.
Qed.

Lemma paginates_cost query max_images kwargs collected offset (st : state)
    pages err st' :
  paginates query max_images kwargs collected offset st pages err st' ->
  max_retries (self st') = max_retries (self st) /\
  Z.of_nat (List.length pages) <= Z.max 0 (max_images - Z.of_nat (List.length collected)) /\
  exists evs,
    trace st' = trace st ++ evs /\
    Z.of_nat (request_count evs)
    <= Z.max 0 (max_images - Z.of_nat (List.length collected))
       * Z.max 0 (max_retries (self st)).
Proof.
  induction 1 as [collected offset st Hge
                 |collected offset st e st' Hlt Hcall
                 |collected offset st r st' Hlt Hcall Hstop
                 |collected offset st r st' pages err st'' Hlt Hcall Ht Hi Hrest IH].
  - split; [reflexivity|]. split; [cbn; lia|].
    exists []. rewrite app_nil_r. split; [reflexivity|]. cbn. nia.
  - destruct (call_search_cost query
                (Z.min (max_images - Z.of_nat (List.length collected)) (Z.min 150 max_images))
                offset kwargs st) as (evs & Htr & Hreq & Hm).
    rewrite Hcall in Htr, Hm. cbn [snd] in Htr, Hm.
    split; [exact Hm|]. split; [cbn; lia|].
    exists evs. split; [exact Htr|]. nia.
  - destruct (call_search_cost query
                (Z.min (max_images - Z.of_nat (List.length collected)) (Z.min 150 max_images))
                offset kwargs st) as (evs & Htr & Hreq & Hm).
    rewrite Hcall in Htr, Hm. cbn [snd] in Htr, Hm.
    split; [exact Hm|]. split; [cbn; lia|].
    exists evs. split; [exact Htr|]. nia.
  - destruct (call_search_cost query
                (Z.min (max_images - Z.of_nat (List.length collected)) (Z.min 150 max_images))
                offset kwargs st) as (evs & Htr & Hreq & Hm).
    rewrite Hcall in Htr, Hm. cbn [snd] in Htr, Hm.
    destruct IH as (Hm' & Hpages & evs' & Htr' & Hreq').
    assert (Hn : (1 <= List.length (images r))%nat).
    { destruct (images r); [contradiction|cbn; lia]. }
    rewrite length_app in Hpages, Hreq'. rewrite Hm in Hreq'.
    split; [congruence|]. split; [cbn [List.length]; lia|].
    exists (evs ++ evs'). split; [rewrite Htr', Htr, <- app_assoc; reflexivity|].
    rewrite request_count_app. nia.
Qed.

End WithEnv.

End SearchFacts.

Module SearchSpec.

Import PyFacts BingClientFacts PaginationFacts BingClientSpec Observe MoreFixtures
       RetryFacts SearchFacts.

(** X14.  [search] stamps [last_request_time] before it sends anything.
    Its calls are those of the rate limit: a reading of the clock, at
    most one sleep, and a second reading of the clock, which is the one
    it keeps in [last_request_time]; then come those of the retry loop:
    at most [max_retries] requests, a sleep between two of them and no
    reading of the clock.  So the reading kept is taken after the sleep
    of the rate limit and before the first request, and the time the
    requests and the backoffs take is not counted.  No other attribute
    of the client changes. *)
Theorem search_stamps_before_requests (RT : Runtime) (E : Env)
    (query : string) (count : Z) (offset market safe_search image_type filter : value)
    (kwargs : list (string * value)) (st : state) :
  exists evs1 evs2 st',
    snd (search query count offset market safe_search image_type filter kwargs st) = st' /\
    trace st' = trace st ++ evs1 ++ evs2 /\
    request_count evs1 = 0%nat /\
    (sleep_count evs1 <= 1)%nat /\
    last_time evs1 = Some (last_request_time (self st')) /\
    (forall t, ~ In (EvTime t) evs2) /\
    Z.of_nat (request_count evs2) <= Z.max 0 (max_retries (self st)) /\
    sleep_count evs2 = Nat.pred (request_count evs2) /\
    self st' = set_last_request_time (self st) (last_request_time (self st')) /\
    (exists t1 slept,
        evs1 = EvTime t1 :: slept ++ [EvTime (last_request_time (self st'))] /\
        (slept = [] \/ exists seconds, slept = [EvSleep (VFloat seconds)])).
Proof.
  destruct (search_run query count offset market safe_search image_type filter kwargs st)
    as (ps & evs1 & st1 & answers & res & st2 & _ & Hrl & Htr1 & Hreq & Hsl & _ & Hlast
        & Hself & Hlen & Htr2 & Hself2 & _ & ->).
  set (req := {| url := endpoint (self st); params := ps;
                 headers := [("Ocp-Apim-Subscription-Key", VStr (api_key (self st)));
                             ("Accept", VStr "application/json")];
                 timeout := 30 |}) in *.
  destruct (backoff_trace_counts req answers 1) as (Hr & Hs & _ & Hn).
  exists evs1, (backoff_trace req 1 answers), st2. cbn [snd].
  split; [reflexivity|]. split; [rewrite Htr2, Htr1, <- app_assoc; reflexivity|].
  split; [exact Hreq|]. split; [exact Hsl|]. rewrite Hself2.
  split; [exact Hlast|]. split; [exact Hn|]. rewrite Hr.
  split; [exact Hlen|]. split; [exact Hs|]. split; [exact Hself|].
  pose proof (enforce_rate_limit_exact st) as Hex. cbv zeta in Hex.
  rewrite Hrl in Hex. injection Hex as Hst. subst st1.
  cbn [trace self last_request_time set_last_request_time] in *.
  apply app_inv_head in Htr1. subst evs1.
  eexists. eexists. split; [reflexivity|].
  destruct (PrimFloat.ltb _ _); [right; eexists; reflexivity|now left].
Qed.

(** X15.  The parameters [search] sends: a keyword argument it does not
    name goes into the request as it is and replaces a parameter of the
    same name; apart from those the request has [q], [count] (at most
    150), [offset], [mkt] and [safeSearch], and [imageType] and
    [$filter] exactly when [image_type] and [filter] are truthy, and
    nothing else. *)
Theorem search_sends_parameters (RT : Runtime) (E : Env)
    (query : string) (count : Z) (offset market safe_search image_type filter : value)
    (kwargs : list (string * value)) (st : state) :
  exists evs,
    trace (snd (search query count offset market safe_search image_type filter kwargs st))
    = trace st ++ evs /\
    forall req a,
      In (EvGet req a) evs ->
      (forall k v, lookup k (rev kwargs) = Some v -> lookup k (params req) = Some v) /\
      (forall k,
          lookup k kwargs = None ->
          lookup k (params req)
          = if String.eqb k "q" then Some (VStr query)
            else if String.eqb k "count" then Some (VInt (Z.min count 150))
            else if String.eqb k "offset" then Some offset
            else if String.eqb k "mkt" then Some market
            else if String.eqb k "safeSearch" then Some safe_search
            else if String.eqb k "imageType"
                 then (if truthy image_type then Some image_type else None)
            else if String.eqb k "$filter"
                 then (if truthy filter then Some filter else None)
            else None).
Proof.
  destruct (search_run query count offset market safe_search image_type filter kwargs st)
    as (ps & evs1 & st1 & answers & res & st2 & Hps & _ & Htr1 & Hreq & _ & _ & _
        & _ & _ & Htr2 & _ & _ & ->).
  cbn [snd]. eexists. split; [rewrite Htr2, Htr1, <- app_assoc; reflexivity|].
  intros req a Hin. apply in_app_or in Hin. destruct Hin as [Hin|Hin].
  - exfalso. unfold request_count in Hreq.
    assert (H : In (EvGet req a)
                  (List.filter (fun ev => match ev with EvGet _ _ => true | _ => false end)
                     evs1)) by (apply filter_In; now split).
    destruct (List.filter _ evs1); [exact H|discriminate].
  - apply backoff_trace_gets in Hin. subst req. cbn [params]. subst ps. split.
    + intros k v Hk. rewrite search_params_lookup, Hk. reflexivity.
    + intros k Hk. rewrite search_params_lookup, (lookup_rev_none _ _ Hk). reflexivity.
Qed.

(** X16.  All the requests of one call of [search] are the same request:
    a retry sends again what the first attempt sent, to the endpoint of
    the client, with its key in [Ocp-Apim-Subscription-Key], with
    [Accept: application/json] and a timeout of 30 seconds. *)
Theorem search_repeats_one_request (RT : Runtime) (E : Env)
    (query : string) (count : Z) (offset market safe_search image_type filter : value)
    (kwargs : list (string * value)) (st : state) :
  exists evs req,
    trace (snd (search query count offset market safe_search image_type filter kwargs st))
    = trace st ++ evs /\
    url req = endpoint (self st) /\
    headers req = [("Ocp-Apim-Subscription-Key", VStr (api_key (self st)));
                   ("Accept", VStr "application/json")] /\
    timeout req = 30 /\
    forall req' a, In (EvGet req' a) evs -> req' = req.
Proof.
  destruct (search_run query count offset market safe_search image_type filter kwargs st)
    as (ps & evs1 & st1 & answers & res & st2 & _ & _ & Htr1 & Hreq & _ & _ & _
        & _ & _ & Htr2 & _ & _ & ->).
  cbn [snd].
  set (req := {| url := endpoint (self st); params := ps;
                 headers := [("Ocp-Apim-Subscription-Key", VStr (api_key (self st)));
                             ("Accept", VStr "application/json")];
                 timeout := 30 |}) in *.
  exists (evs1 ++ backoff_trace req 1 answers), req.
  split; [rewrite Htr2, Htr1, <- app_assoc; reflexivity|].
  split; [reflexivity|]. split; [reflexivity|]. split; [reflexivity|].
  intros req' a Hin. apply in_app_or in Hin. destruct Hin as [Hin|Hin].
  - exfalso. unfold request_count in Hreq.
    assert (H : In (EvGet req' a)
                  (List.filter (fun ev => match ev with EvGet _ _ => true | _ => false end)
                     evs1)) by (apply filter_In; now split).
    destruct (List.filter _ evs1); [exact H|discriminate].
  - now apply backoff_trace_gets in Hin.
Qed.

(** X17.  A page without images ends the pagination, whatever its
    [next_offset]: the pass through the loop that fetched it leaves the
    loop with the images it had, and in every run of [search_all] such a
    page is the last one fetched; [search_all] then returns, with the
    images of the pages before it. *)
Theorem empty_page_ends_pagination
    (RT : Runtime) (E : Env) (query : string) (max_images : Z)
    (kwargs : list (string * value)) :
  (forall fuel l st r st',
      Z.of_nat (List.length (all_images l)) < max_images ->
      call_search query
        (Z.min (max_images - Z.of_nat (List.length (all_images l))) (Z.min 150 max_images))
        (BingClient.offset l) kwargs st = (Ok r, st') ->
      images r = [] ->
      search_all_loop (S fuel) query max_images kwargs (Z.min 150 max_images) l st
      = (Ok (Some {| all_images := all_images l;
                     BingClient.offset := BingClient.offset l;
                     result := Some r |}), st'))
  /\
  (forall st,
      1 <= max_images ->
      bindable kwargs ->
      exists pages err st',
        paginates query max_images kwargs [] (VInt 0) st pages err st' /\
        snd (search_all query max_images kwargs st) = st' /\
        (forall before p after,
            pages = before ++ p :: after ->
            images (fetched p) = [] ->
            after = [] /\ err = None /\
            exists r,
              fst (search_all query max_images kwargs st) = Ok (Some r) /\
              images r = firstn (Z.to_nat max_images) (images_of before) /\
              total_estimated_matches r = total_estimated_matches (fetched p))).
Proof.
  split.
  - intros fuel l st r st' Hlt Hcall Hempty.
    cbn [search_all_loop]. cbv zeta. unfold mbind.
    destruct (Z.ltb_spec (Z.of_nat (List.length (all_images l))) max_images); [|lia].
    rewrite Hcall, Hempty, app_nil_r, orb_true_r. reflexivity.
  - intros st Hmax Hkw.
    destruct (search_all_spec query max_images kwargs st Hmax Hkw)
      as (pages & err & st' & Hpag & Hrun).
    exists pages, err, st'. split; [exact Hpag|]. split.
    + destruct err as [e|]; [now rewrite Hrun|].
      destruct Hrun as (r & -> & _). reflexivity.
    + intros before p after Hpages Hempty.
      destruct (paginates_stops _ _ _ _ _ _ _ _ _ Hpag before p after Hpages
                  (or_intror Hempty)) as [-> ->].
      split; [reflexivity|]. split; [reflexivity|].
      destruct Hrun as (r & -> & _ & Himg & _ & Htot). exists r.
      split; [reflexivity|]. subst pages. split.
      * rewrite Himg. unfold images_of. rewrite flat_map_app. cbn [flat_map].
        now rewrite Hempty, !app_nil_r.
      * unfold last_total in Htot. rewrite rev_app_distr in Htot. cbn in Htot.
        now injection Htot.
Qed.

(** X18.  [search_all] sends at most [max_images] times [max_retries]
    requests (none when one of the two is 0 or less): every page but the
    last brings an image, and a page costs at most [max_retries]
    requests. *)
Theorem search_all_request_bound
    (RT : Runtime) (E : Env) (query : string) (max_images : Z)
    (kwargs : list (string * value)) (st : state) :
  exists evs,
    trace (snd (search_all query max_images kwargs st)) = trace st ++ evs /\
    Z.of_nat (request_count evs) <= Z.max 0 max_images * Z.max 0 (max_retries (self st)).
Proof.
  destruct (existsb (fun k => has_key k kwargs) ["self"; "query"; "max_images"]) eqn:Hkw.
  - exists []. unfold search_all. rewrite Hkw. cbn. rewrite app_nil_r. split; [reflexivity|nia].
  - destruct (Z.le_gt_cases 1 max_images) as [Hmax|Hmax].
    + destruct (search_all_spec query max_images kwargs st Hmax Hkw)
        as (pages & err & st' & Hpag & Hrun).
      destruct (paginates_cost _ _ _ _ _ _ _ _ _ Hpag) as (_ & _ & evs & Htr & Hreq).
      exists evs. split.
      * destruct err as [e|]; [now rewrite Hrun|].
        destruct Hrun as (r & -> & _). exact Htr.
      * cbn [List.length Z.of_nat] in Hreq. now rewrite Z.sub_0_r in Hreq.
    + exists []. unfold search_all. rewrite Hkw.
      unfold mbind. cbn [search_all_loop all_images List.length Z.of_nat].
      destruct (Z.ltb_spec 0 max_images); [lia|].
      cbn. rewrite app_nil_r. split; [reflexivity|nia].
Qed.

(** X19.  [search_all] takes no [count] and no [offset]: it passes both
    to [search] itself, so that a keyword argument of one of these names
    makes the first call of [search] a [TypeError], before anything is
    sent. *)
Theorem search_all_rejects_count_and_offset
    (RT : Runtime) (E : Env) (query : string) (max_images : Z)
    (kwargs : list (string * value)) (st : state) :
  1 <= max_images ->
  bindable kwargs ->
  has_key "count" kwargs = true \/ has_key "offset" kwargs = true ->
  search_all query max_images kwargs st = (Raise TypeError, st).
Proof.
  intros Hmax Hkw Hbad. unfold search_all. unfold bindable in Hkw. rewrite Hkw.
  unfold mbind. cbn [search_all_loop all_images List.length Z.of_nat].
  destruct (Z.ltb_spec 0 max_images); [|lia].
  cbv zeta. unfold mbind, call_search.
  replace (existsb (fun k => has_key k kwargs) ["self"; "query"; "count"; "offset"])
    with true; [reflexivity|].
  symmetry. cbn [existsb]. destruct Hbad as [-> | ->];
    rewrite ?orb_true_r; reflexivity.
Qed.

Lemma search_stamps_before_requests_witness :
  let st' := snd (@search runtime (fake_env fails_twice) "cats" 50 (VInt 0) (VStr "en-US")
                    (VStr "Moderate") VNone VNone []
                    (start_with fails_twice waiting_client)) in
  (exists evs1 evs2,
      trace st' = evs1 ++ evs2 /\
      request_count evs1 = 0%nat /\
      (forall t, ~ In (EvTime t) evs2)) /\
  sleeps (trace st') = [VFloat 0.5%float; VInt 1; VInt 2] /\
  last_request_time (self st') = 1000.5%float /\
  request_count (trace st') = 3%nat.
Proof.
  intros st'. split.
  - destruct (search_stamps_before_requests runtime (fake_env fails_twice) "cats" 50
                (VInt 0) (VStr "en-US") (VStr "Moderate") VNone VNone []
                (start_with fails_twice waiting_client))
      as (evs1 & evs2 & st2 & H1 & H2 & H3 & _ & _ & H4 & _).
    exists evs1, evs2. subst st'. rewrite H1. repeat split; assumption.
  - repeat split; vm_compute; reflexivity.
Defined.

Lemma search_sends_parameters_witness :
  exists evs,
    trace (snd (@search runtime (fake_env pages_of_50) "cats" 200 (VInt 0) (VStr "en-US")
                  (VStr "Moderate") VNone VNone [("q", VStr "dogs")]
                  (fake_start pages_of_50))) = evs /\
    forall req a,
      In (EvGet req a) evs ->
      lookup "q" (params req) = Some (VStr "dogs") /\
      lookup "count" (params req) = Some (VInt 150) /\
      lookup "imageType" (params req) = None.
Proof.
  destruct (search_sends_parameters runtime (fake_env pages_of_50) "cats" 200
              (VInt 0) (VStr "en-US") (VStr "Moderate") VNone VNone [("q", VStr "dogs")]
              (fake_start pages_of_50)) as (evs & Htr & Hreq).
  exists evs. split; [exact Htr|].
  intros req a Hin. destruct (Hreq req a Hin) as [Hk Ho].
  split; [apply Hk; reflexivity|].
  split; [apply (Ho "count"); reflexivity|apply (Ho "imageType"); reflexivity].
Defined.

Lemma search_repeats_one_request_witness :
  exists evs req,
    trace (snd (@search runtime (fake_env fails_twice) "cats" 50 (VInt 0) (VStr "en-US")
                  (VStr "Moderate") VNone VNone [] (fake_start fails_twice))) = evs /\
    url req = "https://api.bing.microsoft.com/v7.0/images/search" /\
    forall req' a, In (EvGet req' a) evs -> req' = req.
Proof.
  destruct (search_repeats_one_request runtime (fake_env fails_twice) "cats" 50
              (VInt 0) (VStr "en-US") (VStr "Moderate") VNone VNone []
              (fake_start fails_twice)) as (evs & req & Htr & Hurl & _ & _ & Hreq).
  exists evs, req. split; [exact Htr|]. split; [exact Hurl|exact Hreq].
Defined.

Lemma empty_page_ends_pagination_witness :
  let run := @search_all runtime (fake_env empty_pages) "cats" 120 []
               (fake_start empty_pages) in
  (exists pages err,
      @paginates runtime (fake_env empty_pages) "cats" 120 [] [] (VInt 0)
        (fake_start empty_pages) pages err (snd run)) /\
  image_count (fst run) = Some 0%nat /\
  request_count (trace (snd run)) = 1%nat.
Proof.
  intros run. split.
  - destruct (proj2 (empty_page_ends_pagination runtime (fake_env empty_pages)
                       "cats" 120 []) (fake_start empty_pages))
      as (pages & err & st' & Hpag & Hst & _).
    + lia.
    + reflexivity.
    + exists pages, err. subst run. rewrite Hst. exact Hpag.
  - split; vm_compute; reflexivity.
Defined.

Lemma search_all_rejects_count_and_offset_witness :
  @search_all runtime (fake_env pages_of_50) "cats" 120 [("count", VInt 10)]
    (fake_start pages_of_50)
  = (Raise TypeError, fake_start pages_of_50).
Proof.
  apply search_all_rejects_count_and_offset.
  - lia.
  - reflexivity.
  - left. reflexivity.
Defined.

End SearchSpec.

(* ================================================================== *)
(** * The builtins on examples                                          *)
(* ================================================================== *)

Example int_of_str_ex1 : int_of_str 4300 " +1_000 " = Ok 1000. Proof. reflexivity. Qed.
Example int_of_str_ex2 : int_of_str 4300 "-42" = Ok (-42). Proof. reflexivity. Qed.
Example int_of_str_ex3 : int_of_str 4300 "1__0" = Raise ValueError. Proof. reflexivity. Qed.
Example int_of_str_ex4 : int_of_str 4300 "" = Raise ValueError. Proof. reflexivity. Qed.
Example int_of_str_ex5 : int_of_str 4300 "12_" = Raise ValueError. Proof. reflexivity. Qed.
Example int_of_str_ex6 :
  int_of_str 4300 (String (ascii_of_nat 28) "5") = Raise ValueError /\
  int_of_str 4300 (String (ascii_of_nat 31) "5") = Raise ValueError /\
  int_of_str 4300 (String (ascii_of_nat 160) "5") = Ok 5 /\
  int_of_str 4300 (String (ascii_of_nat 12) "5") = Ok 5.
Proof. repeat split; reflexivity. Qed.
Example str_of_int_ex : str_of_int 500 = "500" /\ str_of_int (-7) = "-7" /\ str_of_int 0 = "0".
Proof. repeat split; reflexivity. Qed.
Example split_ex : str_split_head " B" "102400 B" = "102400" /\ str_contains " B" "bad" = false.
Proof. split; reflexivity. Qed.
Example rstrip_ex : str_rstrip "Z" "2023-05-01T00:00:00ZZ" = "2023-05-01T00:00:00".
Proof. reflexivity. Qed.
Example float_ex : float_ge_int (1.5)%float 1 = true /\ float_ge_int (1.5)%float 2 = false
  /\ float_ge_int (-0.25)%float 0 = false /\ truthy (VFloat (-0)%float) = false.
Proof. repeat split; vm_compute; reflexivity. Qed.
